(** * projeto_streamlit: the data pipeline of the two dashboard pages

    A shallow embedding of [page_1.py] and [page_2.py].  Prices are IEEE
    binary64 numbers, as pandas stores them, and a missing observation is
    the NaN of that format; a table is its column labels and its rows; the
    Streamlit widgets are read as the values the user gave them, and what a
    page writes on the screen or asks of the market-data provider is kept
    as a trace of events.  The functions that take a table are also
    written over a store of objects, where a statement can write to the
    table it was given. *)

From Stdlib Require Import Floats ZArith List String Ascii Bool Lia.
From Stdlib Require Import DecimalString Sorted.
Import ListNotations.

Set Implicit Arguments.
Set Warnings "-inexact-float".
Open Scope string_scope.

(* ===================================================================== *)
(** ** Python values: exceptions and results                              *)
(* ===================================================================== *)

Module Py.

Inductive exn : Type :=
| FileNotFoundError (path : string)
| KeyError (key : string)
| AttributeError (what : string)
| ParserError (text : string)
| TypeError (message : string)
| StreamlitAPIException (message : string).

Inductive result (A : Type) : Type :=
| Ok (a : A)
| Raise (e : exn).

Arguments Ok {A} a.
Arguments Raise {A} e.

Definition bind {A B : Type} (r : result A) (k : A -> result B) : result B :=
  match r with
  | Ok a => k a
  | Raise e => Raise e
  end.

(** The line feed of a Python string literal. *)
Definition nl : string := String (ascii_of_nat 10) EmptyString.

(** [str(n)] for a non-negative integer. *)
Definition str_of_Z (n : Z) : string :=
  NilZero.string_of_uint (N.to_uint (Z.to_N n)).

Definition two_digits (n : Z) : string :=
  if (n <? 10)%Z then ("0" ++ str_of_Z n)%string else str_of_Z n.

(** Nearest integer to [num / den], ties to the even one ([0 < den]). *)
Definition round_half_even (num den : Z) : Z :=
  let q := (num / den)%Z in
  let r := (num mod den)%Z in
  match (2 * r ?= den)%Z with
  | Lt => q
  | Gt => (q + 1)%Z
  | Eq => if Z.even q then q else (q + 1)%Z
  end.

(** The hundredths of [m * 2^e], correctly rounded. *)
Definition hundredths (m : positive) (e : Z) : Z :=
  if (0 <=? e)%Z
  then (Z.pos m * 2 ^ e * 100)%Z
  else round_half_even (Z.pos m * 100) (2 ^ (- e)).

Definition sign_text (s : bool) : string :=
  if s then "-"%string else ""%string.

(** [format(y, '.2f')]: two decimals, correctly rounded from the exact
    binary value; a minus sign when the sign bit is set, no sign otherwise. *)
Definition format_f2 (y : float) : string :=
  match Prim2SF y with
  | S754_nan => "nan"
  | S754_infinity s => sign_text s ++ "inf"
  | S754_zero s => sign_text s ++ "0.00"
  | S754_finite s m e =>
      let n := hundredths m e in
      sign_text s ++ str_of_Z (n / 100) ++ "." ++ two_digits (n mod 100)
  end%string.

(** [f"{x:.2%}"]: the value is multiplied by 100 in binary64, written with
    two decimals, and followed by a percent sign. *)
Definition format_pct2 (x : float) : string :=
  (format_f2 (x * 100)%float ++ "%")%string.

(** A value of a column read from a file: a text, an integer, the NaN of
    a missing field, or any other value, known by the text [str] writes
    it as. *)
Inductive pyval : Type :=
| PyStr (s : string)
| PyInt (n : Z)
| PyNaN
| PyOther (text : string).

(** [str(v)], which is what [f"{v}"] writes. *)
Definition str (v : pyval) : string :=
  match v with
  | PyStr s => s
  | PyInt n => if (n <? 0)%Z then ("-" ++ str_of_Z (- n))%string else str_of_Z n
  | PyNaN => "nan"
  | PyOther text => text
  end.

(** ["".join(lines)]. *)
Definition join (lines : list string) : string :=
  fold_right String.append "" lines.

End Py.

Import Py.

Notation "x <- r ;; k" := (Py.bind r (fun x => k))
  (at level 61, r at next level, right associativity).

(* ===================================================================== *)
(** ** pandas: timestamps, series and frames                              *)
(* ===================================================================== *)

Module Pd.

(** A calendar day; the index of a price table holds one per trading day,
    at midnight. *)
Record Timestamp : Type := mkTs { year : Z; month : Z; day : Z }.

Definition ts_compare (a b : Timestamp) : comparison :=
  match (year a ?= year b)%Z with
  | Eq => match (month a ?= month b)%Z with
          | Eq => (day a ?= day b)%Z
          | c => c
          end
  | c => c
  end.

Definition ts_ltb (a b : Timestamp) : bool :=
  match ts_compare a b with Lt => true | _ => false end.

Definition ts_leb (a b : Timestamp) : bool :=
  match ts_compare a b with Gt => false | _ => true end.

Definition ts_eqb (a b : Timestamp) : bool :=
  match ts_compare a b with Eq => true | _ => false end.

(** An index label: a timestamp, or the text of one (a table read from a
    file before its index is parsed). *)
Inductive label : Type :=
| Text (s : string)
| Stamp (t : Timestamp).

(** A frame: the column labels, and the rows in index order, each with its
    index label and one cell per column.  A missing cell is [nan]. *)
Record DataFrame (L : Type) : Type := mkDF {
  columns : list string;
  rows : list (L * list float)
}.

Arguments mkDF {L} columns rows.

Definition index {L} (d : DataFrame L) : list L := map fst (rows d).
Definition values {L} (d : DataFrame L) : list (list float) := map snd (rows d).

(** Every row has one cell per column. *)
Definition rectangular {L} (d : DataFrame L) : Prop :=
  Forall (fun r => List.length (snd r) = List.length (columns d)) (rows d).

(** [pd.DataFrame()]. *)
Definition empty_frame {L} : DataFrame L := mkDF [] [].

(** [d.empty]: some axis has length zero. *)
Definition is_empty {L} (d : DataFrame L) : bool :=
  match rows d, columns d with
  | [], _ => true
  | _, [] => true
  | _, _ => false
  end.

Definition notna (x : float) : bool := negb (PrimFloat.is_nan x).

(** [s.dropna()] on the values of a series. *)
Definition dropna (s : list float) : list float := filter notna s.

(** Position of the first label equal to [k]. *)
Fixpoint get_loc {K} (eqb : K -> K -> bool) (k : K) (labels : list K) : option nat :=
  match labels with
  | [] => None
  | c :: rest =>
      if eqb k c then Some 0%nat
      else match get_loc eqb k rest with
           | Some j => Some (S j)
           | None => None
           end
  end.

Definition cell (j : nat) (r : list float) : float := nth j r nan.

(** The values of the column at position [j]. *)
Definition column_at {L} (d : DataFrame L) (j : nat) : list float :=
  map (fun r => cell j (snd r)) (rows d).

Fixpoint get_locs (cs : list string) (labels : list string) : result (list nat) :=
  match cs with
  | [] => Ok []
  | c :: rest =>
      match get_loc String.eqb c labels with
      | None => Raise (KeyError c)
      | Some j => js <- get_locs rest labels ;; Ok (j :: js)
      end
  end.

(** [d[cs]] with a list of labels: a new frame with those columns, in the
    order of the list. *)
Definition getitem_list {L} (d : DataFrame L) (cs : list string) : result (DataFrame L) :=
  js <- get_locs cs (columns d) ;;
  Ok (mkDF cs (map (fun r => (fst r, map (fun j => cell j (snd r)) js)) (rows d))).

(** [d.rename(columns={old: new})]. *)
Definition rename {L} (d : DataFrame L) (old new : string) : DataFrame L :=
  mkDF (map (fun c => if String.eqb c old then new else c) (columns d)) (rows d).

(** [d.loc[a:b]]: on an increasing index, the rows whose label lies in the
    closed interval. *)
Definition loc_slice (d : DataFrame Timestamp) (a b : Timestamp) : DataFrame Timestamp :=
  mkDF (columns d) (filter (fun r => ts_leb a (fst r) && ts_leb (fst r) b) (rows d)).

Fixpoint ts_min (l : list Timestamp) : option Timestamp :=
  match l with
  | [] => None
  | t :: rest =>
      match ts_min rest with
      | None => Some t
      | Some u => Some (if ts_ltb u t then u else t)
      end
  end.

Fixpoint ts_max (l : list Timestamp) : option Timestamp :=
  match l with
  | [] => None
  | t :: rest =>
      match ts_max rest with
      | None => Some t
      | Some u => Some (if ts_ltb t u then u else t)
      end
  end.

(** [d.index.min().to_pydatetime()]; on an index with no label there is no
    timestamp to convert. *)
Definition index_min (d : DataFrame Timestamp) : result Timestamp :=
  match ts_min (index d) with
  | Some t => Ok t
  | None => Raise (AttributeError "to_pydatetime")
  end.

Definition index_max (d : DataFrame Timestamp) : result Timestamp :=
  match ts_max (index d) with
  | Some t => Ok t
  | None => Raise (AttributeError "to_pydatetime")
  end.

(** *** Assignment of a column *)

(** A series: its index labels with their values. *)
Definition Series : Type := list (Timestamp * float).

(** The value of [s] at label [t], [nan] when [s] has no such label. *)
Fixpoint series_at (s : Series) (t : Timestamp) : float :=
  match s with
  | [] => nan
  | (u, v) :: rest => if ts_eqb t u then v else series_at rest t
  end.

Fixpoint set_cell (j : nat) (v : float) (r : list float) : list float :=
  match j, r with
  | O, _ :: rest => v :: rest
  | S j', x :: rest => x :: set_cell j' v rest
  | _, [] => []
  end.

(** [d[c] = s].  A frame without rows first takes the index of a series
    that has some; the series is then aligned on the index of the frame,
    and replaces the column labelled [c] or is appended as a new one. *)
Definition setitem (d : DataFrame Timestamp) (c : string) (s : Series)
  : DataFrame Timestamp :=
  let base :=
    match rows d, s with
    | [], _ :: _ => map (fun p => (fst p, map (fun _ => nan) (columns d))) s
    | _, _ => rows d
    end in
  match get_loc String.eqb c (columns d) with
  | Some j =>
      mkDF (columns d)
        (map (fun r => (fst r, set_cell j (series_at s (fst r)) (snd r))) base)
  | None =>
      mkDF (columns d ++ [c])%list
        (map (fun r => (fst r, (snd r ++ [series_at s (fst r)])%list)) base)
  end.

(** *** Masks *)

(** A boolean frame of the shape of the frame it was compared from. *)
Definition Mask : Type := list (list bool).

(** [pd.DataFrame(False, index=d.index, columns=d.columns)]. *)
Definition mask_false {L} (d : DataFrame L) : Mask :=
  map (fun _ => map (fun _ => false) (columns d)) (rows d).

(** [d > 0], [d < 0] and [d == 0], cell by cell. *)
Definition compare_cells {L} (p : float -> bool) (d : DataFrame L) : Mask :=
  map (fun r => map p (snd r)) (rows d).

Definition gt0 (x : float) : bool := (0 <? x)%float.
Definition lt0 (x : float) : bool := (x <? 0)%float.
Definition eq0 (x : float) : bool := (x =? 0)%float.

Fixpoint zip_with {A B C} (f : A -> B -> C) (l : list A) (m : list B) : list C :=
  match l, m with
  | a :: l', b :: m' => f a b :: zip_with f l' m'
  | _, _ => []
  end.

(** [m |= n]. *)
Definition mask_or (m n : Mask) : Mask := zip_with (zip_with orb) m n.

(** [d.where(m)]: a cell is kept where the mask holds and is [nan]
    elsewhere. *)
Definition where_ {L} (d : DataFrame L) (m : Mask) : DataFrame L :=
  mkDF (columns d)
    (zip_with (fun r bs => (fst r, zip_with (fun x (b : bool) => if b then x else nan) (snd r) bs))
       (rows d) m).

Definition has_value (r : list float) : bool := existsb notna r.

(** [d.dropna(how='all')]: the rows with no value at all are left out. *)
Definition dropna_all {L} (d : DataFrame L) : DataFrame L :=
  mkDF (columns d) (filter (fun r => has_value (snd r)) (rows d)).

(** *** Calendar months *)

Definition is_leap (y : Z) : bool :=
  ((y mod 4 =? 0) && (negb (y mod 100 =? 0) || (y mod 400 =? 0)))%Z.

Definition days_in_month (y m : Z) : Z :=
  if (m =? 2)%Z then (if is_leap y then 29 else 28)%Z
  else if ((m =? 4) || (m =? 6) || (m =? 9) || (m =? 11))%Z then 30%Z
  else 31%Z.

(** Months counted from year 0: the bin a day falls in. *)
Definition month_key (t : Timestamp) : Z := (year t * 12 + (month t - 1))%Z.

(** The label of a monthly bin: the last day of the month. *)
Definition month_end (k : Z) : Timestamp :=
  let y := (k / 12)%Z in
  let m := (k mod 12 + 1)%Z in
  mkTs y m (days_in_month y m).

(** The bins from [lo] to [hi], both included. *)
Definition month_range (lo hi : Z) : list Z :=
  map (fun i => (lo + Z.of_nat i)%Z) (seq 0 (Z.to_nat (hi - lo + 1))).

(** *** Resampling *)

(** Insertion after the rows that are not later: the sort is stable. *)
Fixpoint insert_row (r : Timestamp * list float) (l : list (Timestamp * list float))
  : list (Timestamp * list float) :=
  match l with
  | [] => [r]
  | x :: rest =>
      if ts_ltb (fst r) (fst x) then r :: l else x :: insert_row r rest
  end.

(** The rows in index order; rows of the same day keep their order. *)
Definition sort_index (l : list (Timestamp * list float)) : list (Timestamp * list float) :=
  fold_left (fun acc r => insert_row r acc) l [].

(** A row is not later than another. *)
Definition row_le (x y : Timestamp * list float) : Prop :=
  ts_leb (fst x) (fst y) = true.

Definition in_month (k : Z) (r : Timestamp * list float) : bool :=
  (month_key (fst r) =? k)%Z.

(** The last value of a group in column [j], NaN aside; [nan] when the
    group has none. *)
Definition last_valid (j : nat) (group : list (Timestamp * list float)) : float :=
  last (dropna (map (fun r => cell j (snd r)) group)) nan.

(** [d.resample('ME').last()]: one row for every calendar month from the
    month of the earliest label to the month of the latest, labelled by the
    end of the month, with in every column the last value observed in that
    month. *)
Definition resample_ME_last (d : DataFrame Timestamp) : DataFrame Timestamp :=
  match ts_min (index d), ts_max (index d) with
  | Some lo, Some hi =>
      let sorted := sort_index (rows d) in
      mkDF (columns d)
        (map (fun k =>
                let group := filter (in_month k) sorted in
                (month_end k,
                 map (fun j => last_valid j group) (seq 0 (List.length (columns d)))))
           (month_range (month_key lo) (month_key hi)))
  | _, _ => mkDF (columns d) []
  end.

(** *** Percentage change *)

(** [d.shift(1)] on the rows: every row holds the cells of the row before
    it, and the first row holds [nan]. *)
Fixpoint shift_rows {L} (prev : list float) (rs : list (L * list float))
  : list (L * list float) :=
  match rs with
  | [] => []
  | r :: rest => (fst r, prev) :: shift_rows (snd r) rest
  end.

Definition shift1 {L} (d : DataFrame L) : DataFrame L :=
  mkDF (columns d) (shift_rows (map (fun _ => nan) (columns d)) (rows d)).

(** [d.pct_change(fill_method=None)], which is [d / d.shift(1) - 1]. *)
Definition pct_change {L} (d : DataFrame L) : DataFrame L :=
  mkDF (columns d)
    (zip_with (fun r p => (fst r, zip_with (fun x y => (x / y - 1)%float) (snd r) (snd p)))
       (rows d) (rows (shift1 d))).

(** *** Conversion of an index to timestamps *)

Section ToDatetime.

(** The parser of date texts is that of pandas; [None] is a text it
    rejects. *)
Variable parse_datetime : string -> option Timestamp.

Definition to_timestamp (l : label) : result Timestamp :=
  match l with
  | Stamp t => Ok t
  | Text s =>
      match parse_datetime s with
      | Some t => Ok t
      | None => Raise (ParserError s)
      end
  end.

(** [pd.to_datetime(idx)]. *)
Fixpoint to_datetime (idx : list label) : result (list Timestamp) :=
  match idx with
  | [] => Ok []
  | l :: rest =>
      t <- to_timestamp l ;;
      ts <- to_datetime rest ;;
      Ok (t :: ts)
  end.

End ToDatetime.

(** [d.index = idx]. *)
Definition set_index {L M} (d : DataFrame L) (idx : list M) : DataFrame M :=
  mkDF (columns d) (zip_with (fun t r => (t, snd r)) idx (rows d)).

(** A frame whose index holds timestamps, as an object whose index may
    hold any label. *)
Definition stamped (d : DataFrame Timestamp) : DataFrame label :=
  mkDF (columns d) (map (fun r => (Stamp (fst r), snd r)) (rows d)).

End Pd.

Import Pd.

(* ===================================================================== *)
(** ** Streamlit and the world outside                                    *)
(* ===================================================================== *)

Module St.

(** What a page puts on the screen, in the order of the calls. *)
Inductive element : Type :=
| title (text : string)
| header (text : string)
| subheader (text : string)
| sidebar_header (text : string)
| error (text : string)
| info (text : string)
| warning (text : string)
| markdown (text : string)
| write (text : string)
| multiselect (key : string) (options : list string)
| slider (label : string) (min_value max_value : Timestamp)
| columns_ (n : nat)
| date_input (key : string) (value min_value max_value : Timestamp)
| popover (label : string)
| checkbox (key : string)
| line_chart (data : DataFrame Timestamp)
| bar_chart (data : DataFrame label)
| dataframe (cols : list string) (cells : list (Timestamp * list string)).

(** The state of a widget: left as it was drawn, or set by the user. *)
Inductive entry (A : Type) : Type :=
| Untouched
| Entered (a : A).

Arguments Untouched {A}.
Arguments Entered {A} a.

(** The value a widget returns, given the default it was drawn with. *)
Definition value_of {A} (e : entry A) (default : A) : A :=
  match e with
  | Untouched => default
  | Entered a => a
  end.

(** [st.slider] refuses bounds that do not leave a range: the least value
    must be below the greatest. *)
Definition slider_bounds (min_value max_value : Timestamp) : result unit :=
  if ts_ltb min_value max_value then Ok tt
  else Raise (StreamlitAPIException "Slider `min_value` must be less than the `max_value`.").

End St.

(** A semicolon-delimited file as [pd.read_csv(..., sep=";")] reads it: the
    fields of the header line, and the fields of every other line. *)
Record csv : Type := mkCsv {
  csv_header : list string;
  csv_records : list (list string)
}.

(** The closing prices of one symbol in the answer of the provider, and its
    other fields by name. *)
Record ticker_data : Type := mkTicker {
  Close : list float;
  other_fields : list (string * list float)
}.

(** The answer of [yf.download(..., group_by="ticker")]: the trading days,
    and for every symbol the provider resolved its fields, one value per
    day.  The first level of the columns is the symbols listed here. *)
Record download : Type := mkDownload {
  dl_index : list Timestamp;
  dl_tickers : list (string * ticker_data)
}.

(** What lies outside the program: the files of the working directory,
    the market-data provider, and the values the reader of pandas gives to
    a column of fields that is neither all integers nor all codes (see
    [read_column]). *)
Record world : Type := mkWorld {
  arquivos : string -> option csv;
  yf_download : list string -> string -> string -> result download;
  pd_infer : list string -> list pyval
}.

(** What a run does that can be seen from outside. *)
Inductive event : Type :=
| Show (e : St.element)
| Download (tickers : list string) (start end_ : string).

(** A script: the events so far, and a value or the exception that ended
    the run. *)
Definition script (A : Type) : Type := (list event * result A)%type.

Definition ret {A} (a : A) : script A := ([], Ok a).

Definition lift {A} (r : result A) : script A := ([], r).

Definition emit (e : event) : script unit := ([e], Ok tt).

Definition show (e : St.element) : script unit := emit (Show e).

Definition sbind {A B} (m : script A) (k : A -> script B) : script B :=
  match snd m with
  | Ok a => ((fst m ++ fst (k a))%list, snd (k a))
  | Raise e => (fst m, Raise e)
  end.

Notation "x <~ m ;; k" := (sbind m (fun x => k))
  (at level 61, m at next level, right associativity).

Notation "m ;;; k" := (sbind m (fun _ => k))
  (at level 61, right associativity).

(** [pd.read_csv(path, sep=";")]. *)
Definition read_csv (w : world) (path : string) : result csv :=
  match arquivos w path with
  | Some f => Ok f
  | None => Raise (FileNotFoundError path)
  end.

(** *** The values of a column, as the reader types them *)

Definition is_digit (c : ascii) : bool :=
  let n := nat_of_ascii c in ((48 <=? n) && (n <=? 57))%nat.

Definition is_letter (c : ascii) : bool :=
  let n := nat_of_ascii c in
  (((65 <=? n) && (n <=? 90)) || ((97 <=? n) && (n <=? 122)))%nat.

Definition all_chars (p : ascii -> bool) (s : string) : bool :=
  forallb p (list_ascii_of_string s).

(** A field of one to eighteen decimal digits, which the reader takes as
    an integer. *)
Definition integer_field (s : string) : bool :=
  negb (String.eqb s "") && all_chars is_digit s && (String.length s <=? 18)%nat.

(** A field made of letters and digits that starts with a letter and ends
    with a digit, as the codes of the exchange are (PETR4, SANB11): no
    number, no truth value and no marker of a missing value is written so,
    and the reader keeps such a field as its text. *)
Definition code_field (s : string) : bool :=
  match list_ascii_of_string s with
  | [] => false
  | c :: rest =>
      is_letter c && forallb (fun x => is_letter x || is_digit x) rest &&
      is_digit (last rest c)
  end.

(** The integer written by a text of digits. *)
Definition int_of_digits (s : string) : Z :=
  fold_left (fun acc c => (acc * 10 + (Z.of_nat (nat_of_ascii c) - 48))%Z)
    (list_ascii_of_string s) 0%Z.

(** The values of a column whose fields are [fields]: integers when every
    field is an integer, leading zeros lost; the texts of the fields, with
    NaN for an empty field, when every field is a code or empty; whatever
    the reader infers otherwise. *)
Definition read_column (infer : list string -> list pyval) (fields : list string)
  : list pyval :=
  if forallb integer_field fields then
    map (fun s => PyInt (int_of_digits s)) fields
  else if forallb (fun s => code_field s || String.eqb s "") fields then
    map (fun s => if String.eqb s "" then PyNaN else PyStr s) fields
  else infer fields.

(** The fields of every record under the header [c]; a record that is too
    short has an empty field there. *)
Definition raw_column (base : csv) (c : string) : result (list string) :=
  match get_loc String.eqb c (csv_header base) with
  | Some j => Ok (map (fun r => nth j r "") (csv_records base))
  | None => Raise (KeyError c)
  end.

(** [base[c].tolist()] on a file that was read. *)
Definition csv_column (w : world) (base : csv) (c : string) : result (list pyval) :=
  fields <- raw_column base c ;;
  Ok (read_column (pd_infer w) fields).

(* ===================================================================== *)
(** ** page_1.py                                                          *)
(* ===================================================================== *)

Module Page1.

Definition ARQUIVO_TICKERS : string := "IBOV.csv".
Definition DATA_INICIO : string := "2010-01-01".
Definition DATA_FIM : string := "2025-01-01".

(** The widgets of the page, as the user left them. *)
Record widgets : Type := mkWidgets {
  page1_acoes : list string;
  periodo : St.entry (Timestamp * Timestamp)
}.

(** *** carregar_tickers_acoes *)

Definition carregar_tickers_acoes (w : world) : script (list string) :=
  let tentativa :=
    base_tickers <- read_csv w ARQUIVO_TICKERS ;;
    tickers <- csv_column w base_tickers "Código" ;;
    Ok (map (fun item => str item ++ ".SA") tickers) in
  match tentativa with
  | Raise (FileNotFoundError _) =>
      show (St.error ("Erro: O arquivo '" ++ ARQUIVO_TICKERS ++ "' não foi encontrado.")) ;;;
      show (St.info "Por favor, certifique-se de que o arquivo está na mesma pasta que o seu script Streamlit.") ;;;
      ret []
  | r => lift r
  end.

(** *** carregar_dados *)

Fixpoint lookup_ticker (ticker : string) (l : list (string * ticker_data))
  : option ticker_data :=
  match l with
  | [] => None
  | (k, v) :: rest => if String.eqb ticker k then Some v else lookup_ticker ticker rest
  end.

(** [dados_brutos[ticker]['Close']], on the days of the answer. *)
Definition close_series (dados_brutos : download) (t : ticker_data) : Series :=
  combine (dl_index dados_brutos) (Close t).

(** The loop over [empresas]; a symbol is looked up only when it is in the
    first level of the columns of the answer. *)
Fixpoint for_ticker (dados_brutos : download) (empresas : list string)
    (fechamento : DataFrame Timestamp) : DataFrame Timestamp :=
  match empresas with
  | [] => fechamento
  | ticker :: rest =>
      match lookup_ticker ticker (dl_tickers dados_brutos) with
      | Some t =>
          for_ticker dados_brutos rest
            (setitem fechamento ticker (close_series dados_brutos t))
      | None => for_ticker dados_brutos rest fechamento
      end
  end.

Definition carregar_dados (w : world) (empresas : list string)
  : script (DataFrame Timestamp) :=
  emit (Download empresas DATA_INICIO DATA_FIM) ;;;
  dados_brutos <~ lift (yf_download w empresas DATA_INICIO DATA_FIM) ;;
  ret (for_ticker dados_brutos empresas empty_frame).

(** *** configurar_sidebar *)

Definition configurar_sidebar (ui : widgets) (dados : DataFrame Timestamp)
  : script (DataFrame Timestamp * list string * option string) :=
  show (St.sidebar_header "Filtros") ;;;
  show (St.multiselect "page1_acoes" (columns dados)) ;;;
  let lista_acoes := page1_acoes ui in
  sel <~ lift
    match lista_acoes with
    | [] => Ok (dados, None)
    | acao :: outras =>
        dados_filtrados <- getitem_list dados lista_acoes ;;
        match outras with
        | [] => Ok (rename dados_filtrados acao "Close", Some acao)
        | _ => Ok (dados_filtrados, None)
        end
    end ;;
  let dados_filtrados := fst sel in
  let acao_unica := snd sel in
  data_inicial <~ lift (index_min dados_filtrados) ;;
  data_final <~ lift (index_max dados_filtrados) ;;
  lift (St.slider_bounds data_inicial data_final) ;;;
  show (St.slider "Selecione o período" data_inicial data_final) ;;;
  let intervalo_data := St.value_of (periodo ui) (data_inicial, data_final) in
  let dados_filtrados_final :=
    loc_slice dados_filtrados (fst intervalo_data) (snd intervalo_data) in
  ret (dados_filtrados_final, lista_acoes, acao_unica).

(** *** calcular_performance *)

(** The labels after [dados.rename(columns={"Close": acao_unica})];
    [acao_unica] may be Python's [None], which no symbol equals. *)
Definition rename_close (acao_unica : option string) (cols : list string)
  : list (option string) :=
  map (fun c => if String.eqb c "Close" then acao_unica else Some c) cols.

Definition label_eqb (a b : option string) : bool :=
  match a, b with
  | Some x, Some y => String.eqb x y
  | None, None => true
  | _, _ => false
  end.

(** The body of the loop for one symbol, given its series without NaN. *)
Definition linha_performance (acao : string) (serie_acao_sem_nan : list float) : string :=
  if (1 <? List.length serie_acao_sem_nan)%nat then
    let valor_inicial := hd nan serie_acao_sem_nan in
    let valor_final := last serie_acao_sem_nan nan in
    if negb (valor_inicial =? 0)%float then
      let performance := (valor_final / valor_inicial - 1)%float in
      let cor := if (0 <? performance)%float then "green"
                 else if (performance <? 0)%float then "red" else "gray" in
      "**" ++ acao ++ "**: :" ++ cor ++ "[" ++ format_pct2 performance ++ "]  " ++ nl
    else
      "**" ++ acao ++ "**: Não foi possível calcular (valor inicial é zero).  " ++ nl
  else
    "**" ++ acao ++ "**: Dados insuficientes para cálculo no período.  " ++ nl.

Fixpoint for_acao {L} (cols : list (option string)) (dados : DataFrame L)
    (lista_acoes : list string) (texto_performance : string) : result string :=
  match lista_acoes with
  | [] => Ok texto_performance
  | acao :: rest =>
      match get_loc label_eqb (Some acao) cols with
      | None => Raise (KeyError acao)
      | Some j =>
          let serie_acao_sem_nan := dropna (column_at dados j) in
          for_acao cols dados rest
            (texto_performance ++ linha_performance acao serie_acao_sem_nan)
      end
  end.

(** The column labels the loop reads: those of [dados], after the renaming
    when a single symbol is chosen. *)
Definition colunas {L} (dados : DataFrame L) (lista_acoes : list string)
    (acao_unica : option string) : list (option string) :=
  if (List.length lista_acoes =? 1)%nat
  then rename_close acao_unica (columns dados)
  else map Some (columns dados).

Definition calcular_performance {L} (dados : DataFrame L) (lista_acoes : list string)
    (acao_unica : option string) : result string :=
  let cols := colunas dados lista_acoes acao_unica in
  match lista_acoes with
  | [] => Ok "Nenhuma ação selecionada para calcular a performance."
  | _ => for_acao cols dados lista_acoes ""
  end.

(** *** plotar_grafico and main *)

Definition plotar_grafico (dados : DataFrame Timestamp) : script unit :=
  if is_empty dados
  then show (St.warning "Não foram encontrados dados para os tickers e período selecionados.")
  else show (St.line_chart dados).

Definition main (w : world) (ui : widgets) : script unit :=
  show (St.title "Evolução e Performance das Ações") ;;;
  tickers <~ carregar_tickers_acoes w ;;
  dados_completos <~ carregar_dados w tickers ;;
  r <~ configurar_sidebar ui dados_completos ;;
  let dados_filtrados := fst (fst r) in
  let lista_acoes := snd (fst r) in
  let acao_unica := snd r in
  match lista_acoes with
  | [] => show (St.info "Por favor, selecione ao menos uma ação na barra lateral para visualizar os dados.")
  | _ =>
      show (St.subheader "Evolução dos Preços das Ações") ;;;
      plotar_grafico dados_filtrados ;;;
      show (St.subheader "Performance dos Ativos no Período") ;;;
      texto_performance <~ lift (calcular_performance dados_filtrados lista_acoes acao_unica) ;;
      show (St.markdown texto_performance)
  end.

End Page1.

(* ===================================================================== *)
(** ** page_2.py                                                          *)
(* ===================================================================== *)

Module Page2.

(** The widgets of the page, as the user left them. *)
Record widgets : Type := mkWidgets {
  page2_acoes : list string;
  page2_data_inicial : St.entry (option Timestamp);
  page2_data_final : St.entry (option Timestamp);
  alta_filtro : bool;
  filtro_filtro : bool;
  estavel_filtro : bool
}.

(** *** calcular_variacao_mensal *)

Section VariacaoMensal.

Variable parse_datetime : string -> option Timestamp.

(** The function assigns to the index of its argument, so the argument is
    passed through: the result is the argument as the call leaves it,
    with the table of monthly variations. *)
Definition calcular_variacao_mensal (dados : DataFrame label)
  : result (DataFrame label * DataFrame Timestamp) :=
  idx <- to_datetime parse_datetime (index dados) ;;
  let dados := set_index dados (map Stamp idx) in
  let df_mensal := resample_ME_last (set_index dados idx) in
  let variacao_mensal := pct_change df_mensal in
  Ok (dados, variacao_mensal).

End VariacaoMensal.

(** *** configurar_filtros *)

(** [t - pd.DateOffset(years=1)]: the same day a year before, the 28th for
    a 29th of February. *)
Definition minus_one_year (t : Timestamp) : Timestamp :=
  mkTs (year t - 1) (month t) (Z.min (day t) (days_in_month (year t - 1) (month t))).

(** The default of the first date: a year before the last label, and not
    before the first one. *)
Definition um_ano_antes (data_minima data_maxima : Timestamp) : Timestamp :=
  let data_inicial_padrao := minus_one_year data_maxima in
  if ts_ltb data_inicial_padrao data_minima then data_minima else data_inicial_padrao.

(** The checkboxes of the popover, in the order they are drawn. *)
Definition filtros_marcados (ui : widgets) : list string :=
  ((if alta_filtro ui then ["Alta"] else []) ++
   (if filtro_filtro ui then ["Baixa"] else []) ++
   (if estavel_filtro ui then ["Estável"] else []))%list.

Definition marcado (nome : string) (filtros_variacao : list string) : bool :=
  existsb (String.eqb nome) filtros_variacao.

(** The block under [if filtros_variacao:]: the mask starts all false, takes
    in place the cells of every checked direction, and the frame keeps its
    cells where the mask holds. *)
Definition aplicar_filtros_variacao (filtros_variacao : list string)
    (dados_filtrados : DataFrame Timestamp) : DataFrame Timestamp :=
  match filtros_variacao with
  | [] => dados_filtrados
  | _ =>
      let mascara := mask_false dados_filtrados in
      let mascara :=
        if marcado "Alta" filtros_variacao
        then mask_or mascara (compare_cells gt0 dados_filtrados) else mascara in
      let mascara :=
        if marcado "Baixa" filtros_variacao
        then mask_or mascara (compare_cells lt0 dados_filtrados) else mascara in
      let mascara :=
        if marcado "Estável" filtros_variacao
        then mask_or mascara (compare_cells eq0 dados_filtrados) else mascara in
      where_ dados_filtrados mascara
  end.

(** The symbols shown: those chosen, every column when none is. *)
Definition acoes_selecionadas (ui : widgets) (dados_variacao : DataFrame Timestamp)
  : list string :=
  match page2_acoes ui with
  | [] => columns dados_variacao
  | l => l
  end.

Definition configurar_filtros (ui : widgets) (dados_variacao : DataFrame Timestamp)
  : script (DataFrame Timestamp) :=
  show (St.sidebar_header "Filtros de Ações") ;;;
  show (St.multiselect "page2_acoes" (columns dados_variacao)) ;;;
  let acoes_selecionadas := acoes_selecionadas ui dados_variacao in
  dados_filtrados <~ lift (getitem_list dados_variacao acoes_selecionadas) ;;
  show (St.subheader "Filtros Adicionais") ;;;
  data_minima <~ lift (index_min dados_filtrados) ;;
  data_maxima <~ lift (index_max dados_filtrados) ;;
  let data_inicial_padrao := um_ano_antes data_minima data_maxima in
  show (St.columns_ 2) ;;;
  show (St.date_input "page2_data_inicial" data_inicial_padrao data_minima data_maxima) ;;;
  let data_inicial := St.value_of (page2_data_inicial ui) (Some data_inicial_padrao) in
  show (St.date_input "page2_data_final" data_maxima data_minima data_maxima) ;;;
  let data_final := St.value_of (page2_data_final ui) (Some data_maxima) in
  match data_inicial, data_final with
  | Some data_inicial, Some data_final =>
      if ts_ltb data_final data_inicial then
        show (St.error "A data inicial não pode ser posterior à data final") ;;;
        ret empty_frame
      else
        let dados_filtrados := loc_slice dados_filtrados data_inicial data_final in
        show (St.popover "Alta | Baixa | Estável") ;;;
        show (St.checkbox "alta_filtro") ;;;
        show (St.checkbox "filtro_filtro") ;;;
        show (St.checkbox "estavel_filtro") ;;;
        let filtros_variacao := filtros_marcados ui in
        let dados_filtrados := aplicar_filtros_variacao filtros_variacao dados_filtrados in
        ret (dropna_all dados_filtrados)
  | _, _ =>
      show (St.warning "Por favor, selecione um intervalo de datas válido") ;;;
      ret empty_frame
  end.

(** *** exibir_dashboard and main *)

Definition pad (width : nat) (n : Z) : string :=
  let s := str_of_Z n in
  string_of_list_ascii (repeat "0"%char (width - String.length s)) ++ s.

(** [t.strftime('%Y-%m')]. *)
Definition strftime_Ym (t : Timestamp) : string :=
  pad 4 (year t) ++ "-" ++ pad 2 (month t).

Definition exibir_dashboard (dados_filtrados : DataFrame Timestamp) : script unit :=
  show (St.header "Variação Mensal das Ações (%)") ;;;
  if is_empty dados_filtrados then
    show (St.warning "Nenhum dado encontrado para os filtros selecionados")
  else
    let dados_para_plotar : DataFrame label :=
      mkDF (columns dados_filtrados)
        (map (fun r => (Text (strftime_Ym (fst r)), map (fun x => (x * 100)%float) (snd r)))
           (rows dados_filtrados)) in
    show (St.bar_chart dados_para_plotar) ;;;
    show (St.write "---") ;;;
    show (St.subheader "Dados Filtrados") ;;;
    show (St.dataframe (columns dados_filtrados)
            (map (fun r => (fst r, map format_pct2 (snd r))) (rows dados_filtrados))).

Section Main.

Variable parse_datetime : string -> option Timestamp.

Definition main (w : world) (ui : widgets) : script unit :=
  tickers <~ Page1.carregar_tickers_acoes w ;;
  match tickers with
  | [] => ret tt
  | _ =>
      dados_diarios <~ Page1.carregar_dados w tickers ;;
      if is_empty dados_diarios then
        show (St.error "Não foi possível carregar os dados das ações")
      else
        r <~ lift (calcular_variacao_mensal parse_datetime (stamped dados_diarios)) ;;
        let variacao_mensal := snd r in
        dados_finais_filtrados <~ configurar_filtros ui variacao_mensal ;;
        if negb (is_empty dados_finais_filtrados)
        then exibir_dashboard dados_finais_filtrados
        else ret tt
  end.

End Main.

End Page2.

(* ===================================================================== *)
(** ** Tables as objects                                                  *)
(* ===================================================================== *)

(** A table of pandas is an object: two names may hold the same table, and
    a statement that writes to it changes it under every name.  The four
    functions that take a table are written here once more, statement by
    statement, over a store of objects.  A name holds the place of its
    object; a method of pandas that returns a table puts a new object in
    the store; and the two statements of the pages that write to an
    object, [dados.index = ...] and [mascara |= ...], replace the object at
    its place.  A table that pandas returns may share its cells with the
    table it was taken from; the pages write to the cells of no table but
    the mask, which is built from the constant [False], so the sharing is
    left out. *)

Module Objects.

(** The objects: a table, a table whose column labels were renamed to
    values that may be Python's [None], and a table of truth values. *)
Inductive object (L : Type) : Type :=
| Frame (d : DataFrame L)
| Relabelled (labels : list (option string)) (d : DataFrame L)
| Bools (m : Mask).

Arguments Frame {L} d.
Arguments Relabelled {L} labels d.
Arguments Bools {L} m.

Definition store (L : Type) : Type := list (object L).

Definition ref : Type := nat.

Definition lookup {L} (s : store L) (r : ref) : option (object L) := nth_error s r.

Fixpoint replace {L} (r : ref) (o : object L) (s : store L) : store L :=
  match s, r with
  | [], _ => []
  | _ :: rest, O => o :: rest
  | x :: rest, S r' => x :: replace r' o rest
  end.

(** A run from a store: what a script gives, and the store the run leaves.
    There is no run, [None], from a store in which a name that is read
    holds no object of the kind it is read as. *)
Definition prog (L A : Type) : Type := store L -> option (script A * store L).

Definition pret {L A} (a : A) : prog L A := fun s => Some (ret a, s).

(** A step that touches no object. *)
Definition run {L A} (m : script A) : prog L A := fun s => Some (m, s).

Definition pbind {L A B} (m : prog L A) (k : A -> prog L B) : prog L B :=
  fun s =>
    match m s with
    | None => None
    | Some (out, s1) =>
        match snd out with
        | Raise e => Some ((fst out, Raise e), s1)
        | Ok a =>
            match k a s1 with
            | None => None
            | Some (out', s2) => Some (((fst out ++ fst out')%list, snd out'), s2)
            end
        end
    end.

Notation "x <~~ m ;; k" := (pbind m (fun x => k))
  (at level 61, m at next level, right associativity).

Notation "m ;;;; k" := (pbind m (fun _ => k))
  (at level 61, right associativity).

(** A new object, at a place no name held before. *)
Definition new {L} (o : object L) : prog L ref :=
  fun s => Some (ret (List.length s), (s ++ [o])%list).

Definition frame {L} (r : ref) : prog L (DataFrame L) :=
  fun s =>
    match lookup s r with
    | Some (Frame d) => Some (ret d, s)
    | _ => None
    end.

Definition bools {L} (r : ref) : prog L Mask :=
  fun s =>
    match lookup s r with
    | Some (Bools m) => Some (ret m, s)
    | _ => None
    end.

(** The object at [r] is replaced: every name that holds [r] sees [o]. *)
Definition assign {L} (r : ref) (o : object L) : prog L unit :=
  fun s =>
    match lookup s r with
    | Some _ => Some (ret tt, replace r o s)
    | None => None
    end.

(** *** The methods of pandas, on objects *)

(** [d.columns]. *)
Definition columns_of {L} (d : ref) : prog L (list string) :=
  x <~~ frame d ;; pret (columns x).

(** [d[cs]]: a new table. *)
Definition getitem_list {L} (d : ref) (cs : list string) : prog L ref :=
  x <~~ frame d ;;
  y <~~ run (lift (Pd.getitem_list x cs)) ;;
  new (Frame y).

(** [d.rename(columns={old: new})]: a new table. *)
Definition rename {L} (d : ref) (old new_ : string) : prog L ref :=
  x <~~ frame d ;; new (Frame (Pd.rename x old new_)).

Definition index_min (d : ref) : prog Timestamp Timestamp :=
  x <~~ frame d ;; run (lift (Pd.index_min x)).

Definition index_max (d : ref) : prog Timestamp Timestamp :=
  x <~~ frame d ;; run (lift (Pd.index_max x)).

(** [d.loc[a:b]]: a new table. *)
Definition loc_slice (d : ref) (a b : Timestamp) : prog Timestamp ref :=
  x <~~ frame d ;; new (Frame (Pd.loc_slice x a b)).

(** [pd.DataFrame()]. *)
Definition empty_frame {L} : prog L ref := new (Frame Pd.empty_frame).

(** [pd.DataFrame(False, index=d.index, columns=d.columns)]. *)
Definition mask_false {L} (d : ref) : prog L ref :=
  x <~~ frame d ;; new (Bools (Pd.mask_false x)).

(** [d > 0], [d < 0], [d == 0]: a new table of truth values. *)
Definition compare_cells {L} (p : float -> bool) (d : ref) : prog L ref :=
  x <~~ frame d ;; new (Bools (Pd.compare_cells p x)).

(** [m |= n]: the object of [m] is written to. *)
Definition ior {L} (m n : ref) : prog L unit :=
  a <~~ bools m ;;
  b <~~ bools n ;;
  assign m (Bools (mask_or a b)).

(** [d.where(m)]: a new table. *)
Definition where_ {L} (d m : ref) : prog L ref :=
  x <~~ frame d ;;
  b <~~ bools m ;;
  new (Frame (Pd.where_ x b)).

(** [d.dropna(how='all')]: a new table. *)
Definition dropna_all {L} (d : ref) : prog L ref :=
  x <~~ frame d ;; new (Frame (Pd.dropna_all x)).

(** [d.pct_change(fill_method=None)]: a new table. *)
Definition pct_change {L} (d : ref) : prog L ref :=
  x <~~ frame d ;; new (Frame (Pd.pct_change x)).

(** [d.index = idx]: the object of [d] is written to. *)
Definition set_index (d : ref) (idx : list label) : prog label unit :=
  x <~~ frame d ;; assign d (Frame (Pd.set_index x idx)).

(** The timestamps of an index that holds nothing else. *)
Fixpoint stamps (idx : list label) : option (list Timestamp) :=
  match idx with
  | [] => Some []
  | Stamp t :: rest =>
      match stamps rest with
      | Some ts => Some (t :: ts)
      | None => None
      end
  | Text _ :: _ => None
  end.

(** A table is resampled on a datetime index only. *)
Definition datetime_index (d : DataFrame label) : result (DataFrame Timestamp) :=
  match stamps (index d) with
  | Some ts => Ok (Pd.set_index d ts)
  | None =>
      Raise (TypeError "Only valid with DatetimeIndex, TimedeltaIndex or PeriodIndex, but got an instance of 'Index'")
  end.

(** [d.resample('ME').last()]: a new table. *)
Definition resample_ME_last (d : ref) : prog label ref :=
  x <~~ frame d ;;
  y <~~ run (lift (datetime_index x)) ;;
  new (Frame (stamped (Pd.resample_ME_last y))).

(** *** page_1.py *)

Definition configurar_sidebar (ui : Page1.widgets) (dados : ref)
  : prog Timestamp (ref * list string * option string) :=
  run (show (St.sidebar_header "Filtros")) ;;;;
  opcoes <~~ columns_of dados ;;
  run (show (St.multiselect "page1_acoes" opcoes)) ;;;;
  let lista_acoes := Page1.page1_acoes ui in
  sel <~~
    match lista_acoes with
    | [] => pret (dados, None)
    | acao :: outras =>
        dados_filtrados <~~ getitem_list dados lista_acoes ;;
        match outras with
        | [] =>
            dados_filtrados <~~ rename dados_filtrados acao "Close" ;;
            pret (dados_filtrados, Some acao)
        | _ => pret (dados_filtrados, None)
        end
    end ;;
  let dados_filtrados := fst sel in
  let acao_unica := snd sel in
  data_inicial <~~ index_min dados_filtrados ;;
  data_final <~~ index_max dados_filtrados ;;
  run (lift (St.slider_bounds data_inicial data_final)) ;;;;
  run (show (St.slider "Selecione o período" data_inicial data_final)) ;;;;
  let intervalo_data := St.value_of (Page1.periodo ui) (data_inicial, data_final) in
  dados_filtrados_final <~~
    loc_slice dados_filtrados (fst intervalo_data) (snd intervalo_data) ;;
  pret (dados_filtrados_final, lista_acoes, acao_unica).

(** [dados.rename(columns={"Close": acao_unica})]: a new table, with the
    rows of [dados]. *)
Definition rename_close {L} (dados : ref) (acao_unica : option string) : prog L ref :=
  x <~~ frame dados ;;
  new (Relabelled (Page1.rename_close acao_unica (columns x)) x).

(** [dados[acao].dropna()], read from a table or from a renamed one. *)
Definition getitem_dropna {L} (dados : ref) (acao : string) : prog L (list float) :=
  fun s =>
    match lookup s dados with
    | Some (Frame d) =>
        match get_loc Page1.label_eqb (Some acao) (map Some (columns d)) with
        | Some j => Some (ret (dropna (column_at d j)), s)
        | None => Some (lift (Raise (KeyError acao)), s)
        end
    | Some (Relabelled labels d) =>
        match get_loc Page1.label_eqb (Some acao) labels with
        | Some j => Some (ret (dropna (column_at d j)), s)
        | None => Some (lift (Raise (KeyError acao)), s)
        end
    | _ => None
    end.

Fixpoint for_acao {L} (dados : ref) (lista_acoes : list string)
    (texto_performance : string) : prog L string :=
  match lista_acoes with
  | [] => pret texto_performance
  | acao :: rest =>
      serie_acao_sem_nan <~~ getitem_dropna dados acao ;;
      for_acao dados rest
        (texto_performance ++ Page1.linha_performance acao serie_acao_sem_nan)
  end.

Definition calcular_performance {L} (dados : ref) (lista_acoes : list string)
    (acao_unica : option string) : prog L string :=
  let texto_performance := "" in
  dados <~~
    (if (List.length lista_acoes =? 1)%nat
     then rename_close dados acao_unica
     else pret dados) ;;
  match lista_acoes with
  | [] => pret "Nenhuma ação selecionada para calcular a performance."
  | _ => for_acao dados lista_acoes texto_performance
  end.

(** *** page_2.py *)

Definition calcular_variacao_mensal (parse_datetime : string -> option Timestamp)
    (dados : ref) : prog label ref :=
  indice <~~ (x <~~ frame dados ;; run (lift (to_datetime parse_datetime (index x)))) ;;
  set_index dados (map Stamp indice) ;;;;
  df_mensal <~~ resample_ME_last dados ;;
  variacao_mensal <~~ pct_change df_mensal ;;
  pret variacao_mensal.

(** One [if ... in filtros_variacao: mascara |= ...]. *)
Definition ior_se {L} (nome : string) (filtros_variacao : list string)
    (p : float -> bool) (mascara dados_filtrados : ref) : prog L unit :=
  if Page2.marcado nome filtros_variacao
  then comparacao <~~ compare_cells p dados_filtrados ;; ior mascara comparacao
  else pret tt.

(** The block under [if filtros_variacao:]; without a checked box the name
    [dados_filtrados] keeps its object. *)
Definition aplicar_filtros_variacao {L} (filtros_variacao : list string)
    (dados_filtrados : ref) : prog L ref :=
  match filtros_variacao with
  | [] => pret dados_filtrados
  | _ =>
      mascara <~~ mask_false dados_filtrados ;;
      ior_se "Alta" filtros_variacao gt0 mascara dados_filtrados ;;;;
      ior_se "Baixa" filtros_variacao lt0 mascara dados_filtrados ;;;;
      ior_se "Estável" filtros_variacao eq0 mascara dados_filtrados ;;;;
      where_ dados_filtrados mascara
  end.

Definition configurar_filtros (ui : Page2.widgets) (dados_variacao : ref)
  : prog Timestamp ref :=
  run (show (St.sidebar_header "Filtros de Ações")) ;;;;
  opcoes <~~ columns_of dados_variacao ;;
  run (show (St.multiselect "page2_acoes" opcoes)) ;;;;
  acoes_selecionadas <~~
    match Page2.page2_acoes ui with
    | [] => columns_of dados_variacao
    | l => pret l
    end ;;
  dados_filtrados <~~ getitem_list dados_variacao acoes_selecionadas ;;
  run (show (St.subheader "Filtros Adicionais")) ;;;;
  data_minima <~~ index_min dados_filtrados ;;
  data_maxima <~~ index_max dados_filtrados ;;
  let data_inicial_padrao := Page2.um_ano_antes data_minima data_maxima in
  run (show (St.columns_ 2)) ;;;;
  run (show (St.date_input "page2_data_inicial" data_inicial_padrao data_minima data_maxima)) ;;;;
  let data_inicial := St.value_of (Page2.page2_data_inicial ui) (Some data_inicial_padrao) in
  run (show (St.date_input "page2_data_final" data_maxima data_minima data_maxima)) ;;;;
  let data_final := St.value_of (Page2.page2_data_final ui) (Some data_maxima) in
  match data_inicial, data_final with
  | Some data_inicial, Some data_final =>
      if ts_ltb data_final data_inicial then
        run (show (St.error "A data inicial não pode ser posterior à data final")) ;;;;
        empty_frame
      else
        dados_filtrados <~~ loc_slice dados_filtrados data_inicial data_final ;;
        run (show (St.popover "Alta | Baixa | Estável")) ;;;;
        run (show (St.checkbox "alta_filtro")) ;;;;
        run (show (St.checkbox "filtro_filtro")) ;;;;
        run (show (St.checkbox "estavel_filtro")) ;;;;
        let filtros_variacao := Page2.filtros_marcados ui in
        dados_filtrados <~~ aplicar_filtros_variacao filtros_variacao dados_filtrados ;;
        dropna_all dados_filtrados
  | _, _ =>
      run (show (St.warning "Por favor, selecione um intervalo de datas válido")) ;;;;
      empty_frame
  end.

(** *** What a run leaves of the store it started from *)

(** Every object of [s] is in [s'], at its place and as it was. *)
Definition preserves {L} (s s' : store L) : Prop :=
  forall r o, lookup s r = Some o -> lookup s' r = Some o.

(** The run of [m] from [s] does what the script [p] does: the same
    events, the same exception if any, and values related by [R] in the
    store the run leaves, in which the objects of [s] are as they were. *)
Definition sim {L A B} (R : store L -> A -> B -> Prop) (m : prog L A) (p : script B)
    (s : store L) : Prop :=
  exists out s',
    m s = Some (out, s') /\ preserves s s' /\ fst out = fst p /\
    match snd p with
    | Ok b => exists a, snd out = Ok a /\ R s' a b
    | Raise e => snd out = Raise e
    end.

(** The name [r] holds in [s'] a table equal to [d], in an object that [s]
    did not have. *)
Definition new_table {L} (s s' : store L) (r : ref) (d : DataFrame L) : Prop :=
  lookup s r = None /\ lookup s' r = Some (Frame d).

End Objects.

(* ===================================================================== *)
(** ** What the specification says, in its own words                      *)
(* ===================================================================== *)

Module Spec.

(** The display tag of a computed performance. *)
Inductive tag : Type := positive | negative | neutral.

(** Streamlit's colour of a tag. *)
Definition colour (t : tag) : string :=
  match t with
  | positive => "green"
  | negative => "red"
  | neutral => "gray"
  end.

(** Positive above zero, negative below zero, neutral at exactly zero. *)
Definition tagged (v : float) (t : tag) : Prop :=
  ((0 <? v)%float = true -> t = positive) /\
  ((v <? 0)%float = true -> t = negative) /\
  ((v =? 0)%float = true -> t = neutral).

(** A percentage that carries the sign of its value: a plus sign above
    zero, a minus sign below. *)
Definition signed_percentage (v : float) : string :=
  (if (0 <? v)%float then "+" else "") ++ format_pct2 v.

(** The line of the report for one symbol, from its series without the
    missing observations; [percentage] is how a value is written. *)
Inductive performance_line (percentage : float -> string) (acao : string)
    (cleaned : list float) : string -> Prop :=
| insufficient_data :
    (List.length cleaned < 2)%nat ->
    performance_line percentage acao cleaned
      ("**" ++ acao ++ "**: Dados insuficientes para cálculo no período.  " ++ nl)
| zero_baseline :
    (2 <= List.length cleaned)%nat ->
    (hd nan cleaned =? 0)%float = true ->
    performance_line percentage acao cleaned
      ("**" ++ acao ++ "**: Não foi possível calcular (valor inicial é zero).  " ++ nl)
| computed (v : float) (t : tag) :
    (2 <= List.length cleaned)%nat ->
    (hd nan cleaned =? 0)%float = false ->
    v = (last cleaned nan / hd nan cleaned - 1)%float ->
    tagged v t ->
    performance_line percentage acao cleaned
      ("**" ++ acao ++ "**: :" ++ colour t ++ "[" ++ percentage v ++ "]  " ++ nl).

(** *** The direction filter *)

(** A value satisfies some active predicate: Alta above zero, Baixa below
    zero, Estável at zero. *)
Definition retained (ui : Page2.widgets) (x : float) : bool :=
  (Page2.alta_filtro ui && (0 <? x)%float) ||
  (Page2.filtro_filtro ui && (x <? 0)%float) ||
  (Page2.estavel_filtro ui && (x =? 0)%float).

(** With some predicate active a cell is kept when its value is retained
    and is missing otherwise; with none active the cell is as it was. *)
Definition direction_cell (ui : Page2.widgets) (x : float) : float :=
  if Page2.alta_filtro ui || Page2.filtro_filtro ui || Page2.estavel_filtro ui
  then (if retained ui x then x else nan)
  else x.

(** *** Monthly variation *)

(** The calendar months from that of the earliest label to that of the
    latest. *)
Definition months (d : DataFrame Timestamp) : list Z :=
  match ts_min (index d), ts_max (index d) with
  | Some lo, Some hi => month_range (month_key lo) (month_key hi)
  | _, _ => []
  end.

(** [v] is the value of month [k] in column [j]: missing when no day of the
    month has an observation there, and otherwise the observation of a day
    of the month after which no later day of the month has one. *)
Definition month_close (obs : list (Timestamp * list float)) (j : nat) (k : Z)
    (v : float) : Prop :=
  (v = nan /\
   forall r, In r obs -> month_key (fst r) = k -> cell j (snd r) = nan)
  \/
  (notna v = true /\
   exists r, In r obs /\ month_key (fst r) = k /\ cell j (snd r) = v /\
     forall r', In r' obs -> month_key (fst r') = k ->
       ts_ltb (fst r) (fst r') = true -> cell j (snd r') = nan).

(** The change of every row relative to the row before it, column by
    column; the first row has no row before it and is missing. *)
Fixpoint variations (prev : option (list float)) (rs : list (Timestamp * list float))
  : list (Timestamp * list float) :=
  match rs with
  | [] => []
  | r :: rest =>
      (fst r,
       match prev with
       | None => map (fun _ => nan) (snd r)
       | Some p => zip_with (fun x y => (x / y - 1)%float) (snd r) p
       end) :: variations (Some (snd r)) rest
  end.

(** [l] keeps some of the elements of [m], in the order they have in [m]. *)
Inductive subsequence {A : Type} : list A -> list A -> Prop :=
| subseq_nil : subsequence [] []
| subseq_skip (x : A) (l m : list A) : subsequence l m -> subsequence l (x :: m)
| subseq_take (x : A) (l m : list A) : subsequence l m -> subsequence (x :: l) (x :: m).

(** The tickers the loop adds to a frame whose columns are [seen]: those
    the provider answered for, once each. *)
Fixpoint novas (dados_brutos : download) (seen empresas : list string) : list string :=
  match empresas with
  | [] => []
  | ticker :: rest =>
      match Page1.lookup_ticker ticker (dl_tickers dados_brutos) with
      | Some _ =>
          match get_loc String.eqb ticker seen with
          | Some _ => novas dados_brutos seen rest
          | None => ticker :: novas dados_brutos (seen ++ [ticker])%list rest
          end
      | None => novas dados_brutos seen rest
      end
  end.

End Spec.

(* ===================================================================== *)
(** ** Concrete tables                                                    *)
(* ===================================================================== *)

Module Ex.

Definition jan (d : Z) : Timestamp := mkTs 2024 1 d.
Definition feb (d : Z) : Timestamp := mkTs 2024 2 d.

(** One symbol over four days: nothing on the first day, then 10 and 20
    around a gap. *)
Definition precos_10_20 : DataFrame Timestamp :=
  mkDF ["PETR4.SA"]
    [(jan 2, [nan]); (jan 3, [10%float]); (jan 4, [nan]); (jan 5, [20%float])].

Definition precos_5_5 : DataFrame Timestamp :=
  mkDF ["PETR4.SA"] [(jan 2, [5%float]); (jan 3, [5%float])].

Definition precos_0_5 : DataFrame Timestamp :=
  mkDF ["PETR4.SA"] [(jan 2, [0%float]); (jan 3, [5%float])].

Definition precos_um_ponto : DataFrame Timestamp :=
  mkDF ["PETR4.SA"] [(jan 2, [nan]); (jan 3, [7%float])].

Definition precos_sem_pontos : DataFrame Timestamp :=
  mkDF ["PETR4.SA"] [(jan 2, [nan]); (jan 3, [nan])].

(** Daily closes of January and February: January ends at 100 and
    February at 110, with a day without observation at the end of each. *)
Definition diario : DataFrame Timestamp :=
  mkDF ["PETR4.SA"]
    [(jan 29, [98%float]); (jan 30, [100%float]); (jan 31, [nan]);
     (feb 1, [105%float]); (feb 28, [110%float]); (feb 29, [nan])].

(** The same table as a file gives it, the index still text. *)
Definition diario_texto : DataFrame label :=
  mkDF ["PETR4.SA"]
    [(Text "2024-01-30", [100%float]); (Text "2024-02-28", [110%float])].

Definition digit (c : ascii) : option Z :=
  let n := (Z.of_nat (nat_of_ascii c) - 48)%Z in
  if ((0 <=? n) && (n <=? 9))%Z then Some n else None.

Fixpoint number (acc : Z) (cs : list ascii) : option Z :=
  match cs with
  | [] => Some acc
  | c :: rest =>
      match digit c with
      | Some n => number (acc * 10 + n) rest
      | None => None
      end
  end.

(** A parser of the texts "YYYY-MM-DD", which pandas reads as that day. *)
Definition parse_iso (s : string) : option Timestamp :=
  match list_ascii_of_string s with
  | [y1; y2; y3; y4; "-"%char; m1; m2; "-"%char; d1; d2] =>
      match number 0 [y1; y2; y3; y4], number 0 [m1; m2], number 0 [d1; d2] with
      | Some y, Some m, Some d => Some (mkTs y m d)
      | _, _, _ => None
      end
  | _ => None
  end.

(** A table of monthly variations: +1%, -1% and 0%. *)
Definition variacoes : DataFrame Timestamp :=
  mkDF ["PETR4.SA"]
    [(mkTs 2024 1 31, [0.01%float]); (mkTs 2024 2 29, [(-0.01)%float]);
     (mkTs 2024 3 31, [0%float])].

(** Every month shown, and only the rises asked for. *)
Definition apenas_altas : Page2.widgets :=
  Page2.mkWidgets [] (St.Entered (Some (mkTs 2024 1 1))) St.Untouched true false false.

(** The first date after the second. *)
Definition datas_invertidas : Page2.widgets :=
  Page2.mkWidgets [] (St.Entered (Some (mkTs 2024 3 1)))
    (St.Entered (Some (mkTs 2024 2 1))) false false false.

(** The widgets as they are drawn. *)
Definition intocado : Page2.widgets :=
  Page2.mkWidgets [] St.Untouched St.Untouched false false false.

(** The ticker file of the end-to-end scenario, and a directory holding it. *)
Definition ibov : csv :=
  mkCsv ["Código"; "Ação"] [["PETR4"; "PETROBRAS"]; ["VALE3"; "VALE"]].

Definition seria (v : list float) : ticker_data := mkTicker v [].

(** A provider that knows PETR4 and VALE3 and no other symbol. *)
Definition provedor (tickers : list string) (start end_ : string) : result download :=
  Ok (mkDownload [jan 2; jan 3]
        (filter (fun p => existsb (String.eqb (fst p)) tickers)
           [("PETR4.SA", seria [10%float; 20%float]);
            ("VALE3.SA", seria [5%float; 5%float])])).

(** A reader that keeps as text every field it is asked about. *)
Definition leitor (fields : list string) : list pyval := map PyStr fields.

Definition mundo : world :=
  mkWorld (fun path => if String.eqb path "IBOV.csv" then Some ibov else None)
    provedor leitor.

(** The same provider, in a directory without the ticker file. *)
Definition mundo_sem_arquivo : world := mkWorld (fun _ => None) provedor leitor.

(** A ticker file whose only code is written with digits alone. *)
Definition ibov_numerico : csv := mkCsv ["Código"; "Ação"] [["007"; "BOND"]].

Definition mundo_numerico : world :=
  mkWorld (fun path => if String.eqb path "IBOV.csv" then Some ibov_numerico else None)
    provedor leitor.

End Ex.

(* ===================================================================== *)
(** ** Binary64 facts                                                     *)
(* ===================================================================== *)

Section FloatFacts.

Lemma zero_spec : Prim2SF 0%float = S754_zero false.
Proof. reflexivity. Qed.

Lemma gt0_not_lt0 (v : float) : (0 <? v)%float = true -> (v <? 0)%float = false.
Proof.
  rewrite !FloatAxioms.ltb_spec, zero_spec. unfold SFltb.
  destruct (Prim2SF v) as [s|s| |s m e]; simpl; try congruence;
    destruct s; congruence.
Qed.

Lemma gt0_not_eq0 (v : float) : (0 <? v)%float = true -> (v =? 0)%float = false.
Proof.
  rewrite FloatAxioms.ltb_spec, FloatAxioms.eqb_spec, zero_spec. unfold SFltb, SFeqb.
  destruct (Prim2SF v) as [s|s| |s m e]; simpl; try congruence;
    destruct s; congruence.
Qed.

Lemma lt0_not_eq0 (v : float) : (v <? 0)%float = true -> (v =? 0)%float = false.
Proof.
  rewrite FloatAxioms.ltb_spec, FloatAxioms.eqb_spec, zero_spec. unfold SFltb, SFeqb.
  destruct (Prim2SF v) as [s|s| |s m e]; simpl; try congruence;
    destruct s; congruence.
Qed.

Lemma is_nan_spec (x : float) : Prim2SF x = S754_nan -> PrimFloat.is_nan x = true.
Proof.
  intros H. unfold PrimFloat.is_nan. rewrite FloatAxioms.eqb_spec, H. reflexivity.
Qed.

Lemma is_nan_inv (x : float) : PrimFloat.is_nan x = true -> Prim2SF x = S754_nan.
Proof.
  unfold PrimFloat.is_nan. rewrite FloatAxioms.eqb_spec. unfold SFeqb.
  destruct (Prim2SF x) as [s|s| |s m e]; simpl; try reflexivity.
  - destruct s; discriminate.
  - destruct s; discriminate.
  - rewrite Z.compare_refl, Pos.compare_refl. destruct s; discriminate.
Qed.

(** A quotient by NaN, less one, is NaN. *)
Lemma div_nan_sub_is_nan (x : float) : PrimFloat.is_nan (x / nan - 1)%float = true.
Proof.
  apply is_nan_spec. rewrite FloatAxioms.sub_spec, FloatAxioms.div_spec.
  replace (Prim2SF nan) with S754_nan by reflexivity.
  destruct (Prim2SF x) as [s|s| |s m e]; reflexivity.
Qed.

End FloatFacts.

(* ===================================================================== *)
(** ** Strings                                                            *)
(* ===================================================================== *)

Section StringFacts.

Lemma append_assoc (a b c : string) : (a ++ b) ++ c = a ++ (b ++ c).
Proof. induction a as [|x a IH]; simpl; [reflexivity | now rewrite IH]. Qed.

Lemma append_empty_r (a : string) : a ++ "" = a.
Proof. induction a as [|x a IH]; simpl; [reflexivity | now rewrite IH]. Qed.

Lemma prefix_append (a b : string) : String.prefix a (a ++ b) = true.
Proof.
  induction a as [|x a IH]; simpl.
  - destruct b; reflexivity.
  - destruct (ascii_dec x x) as [_|n]; [exact IH | now elim n].
Qed.

Lemma prefix_skip (a b c : string) :
  String.prefix b c = true -> String.prefix (a ++ b) (a ++ c) = true.
Proof.
  intros H. induction a as [|x a IH]; simpl; [exact H|].
  destruct (ascii_dec x x) as [_|n]; [exact IH | now elim n].
Qed.

End StringFacts.

(* ===================================================================== *)
(** ** The performance report (page 1)                                    *)
(* ===================================================================== *)

Section Performance.

Import Page1.

(** The colour picked by the loop is the tag of the value. *)
Lemma cor_tagged (v : float) :
  exists t, Spec.tagged v t /\
    (if (0 <? v)%float then "green" else if (v <? 0)%float then "red" else "gray")
    = Spec.colour t.
Proof.
  destruct (0 <? v)%float eqn:Hpos.
  - exists Spec.positive. split; [|reflexivity]. repeat split; intros H; try reflexivity.
    + rewrite (gt0_not_lt0 Hpos) in H. discriminate.
    + rewrite (gt0_not_eq0 Hpos) in H. discriminate.
  - destruct (v <? 0)%float eqn:Hneg.
    + exists Spec.negative. split; [|reflexivity]. repeat split; intros H; try reflexivity.
      * congruence.
      * rewrite (lt0_not_eq0 Hneg) in H. discriminate.
    + exists Spec.neutral. split; [|reflexivity]. repeat split; intros H;
        try reflexivity; congruence.
Qed.

(** One turn of the loop writes the line the specification describes, the
    percentage being written by Python's [.2%]. *)
Lemma linha_performance_line (acao : string) (cleaned : list float) :
  Spec.performance_line format_pct2 acao cleaned (linha_performance acao cleaned).
Proof.
  unfold linha_performance.
  destruct (1 <? List.length cleaned)%nat eqn:Hlen.
  - apply Nat.ltb_lt in Hlen.
    destruct (hd nan cleaned =? 0)%float eqn:Hz; simpl negb; cbv iota.
    + apply Spec.zero_baseline; [lia | exact Hz].
    + destruct (cor_tagged (last cleaned nan / hd nan cleaned - 1)%float) as [t [Ht Hc]].
      rewrite Hc.
      eapply Spec.computed; [lia | exact Hz | reflexivity | exact Ht].
  - apply Nat.ltb_ge in Hlen. apply Spec.insufficient_data. lia.
Qed.

(** The loop appends one line per symbol, in the order of the list. *)
Lemma for_acao_lines {L} (cols : list (option string)) (dados : DataFrame L)
    (lista : list string) :
  (forall acao, In acao lista -> get_loc label_eqb (Some acao) cols <> None) ->
  forall texto, exists lines,
    for_acao cols dados lista texto = Ok (texto ++ join lines) /\
    Forall2 (fun acao line => exists j,
               get_loc label_eqb (Some acao) cols = Some j /\
               Spec.performance_line format_pct2 acao (dropna (column_at dados j)) line)
      lista lines.
Proof.
  induction lista as [|acao rest IH]; intros Hcols texto.
  - exists []. simpl. rewrite append_empty_r. split; [reflexivity | constructor].
  - simpl. destruct (get_loc label_eqb (Some acao) cols) as [j|] eqn:Hj.
    + destruct (IH (fun a Ha => Hcols a (or_intror Ha))
                  (texto ++ linha_performance acao (dropna (column_at dados j))))
        as [lines [Hrun Hall]].
      exists (linha_performance acao (dropna (column_at dados j)) :: lines).
      split.
      * rewrite Hrun. simpl. now rewrite append_assoc.
      * constructor; [|exact Hall]. exists j. split; [exact Hj|].
        apply linha_performance_line.
    + exfalso. apply (Hcols acao); [now left | exact Hj].
Qed.

(** C1, as the code has it.  When some symbol is chosen and every chosen
    symbol labels a column, the report is one line per chosen symbol, in
    order.  The line of a symbol is decided by its column without the
    missing observations: fewer than two left give the insufficient-data
    line; otherwise a first observation equal to zero gives the
    zero-baseline line; otherwise the line shows last / first - 1 written
    by Python's [.2%] (two decimals, a minus sign below zero and no sign
    above it), in the colour of its tag: positive above zero, negative below
    zero, neutral at exactly zero. *)
Theorem calcular_performance_lines {L} (dados : DataFrame L)
    (lista_acoes : list string) (acao_unica : option string) :
  lista_acoes <> [] ->
  (forall acao, In acao lista_acoes ->
     get_loc label_eqb (Some acao) (colunas dados lista_acoes acao_unica) <> None) ->
  exists lines,
    calcular_performance dados lista_acoes acao_unica = Ok (join lines) /\
    Forall2 (fun acao line => exists j,
               get_loc label_eqb (Some acao) (colunas dados lista_acoes acao_unica) = Some j /\
               Spec.performance_line format_pct2 acao (dropna (column_at dados j)) line)
      lista_acoes lines.
Proof.
  intros Hne Hcols. unfold calcular_performance.
  destruct lista_acoes as [|a l] eqn:E; [congruence|].
  rewrite <- E in *.
  destruct (for_acao_lines (colunas dados lista_acoes acao_unica) dados lista_acoes Hcols "")
    as [lines [Hrun Hall]].
  exists lines. split; [|exact Hall]. exact Hrun.
Qed.

(** The series [10, 20] once the gaps are dropped: +100%, written "100.00%"
    in green. *)
Lemma calcular_performance_witness :
  exists lines,
    calcular_performance Ex.precos_10_20 ["PETR4.SA"] (Some "PETR4.SA") = Ok (join lines) /\
    Forall2 (fun acao line => exists j,
               get_loc label_eqb (Some acao)
                 (colunas Ex.precos_10_20 ["PETR4.SA"] (Some "PETR4.SA")) = Some j /\
               Spec.performance_line format_pct2 acao
                 (dropna (column_at Ex.precos_10_20 j)) line)
      ["PETR4.SA"] lines.
Proof.
  apply calcular_performance_lines.
  - discriminate.
  - intros acao [<-|[]]. vm_compute. discriminate.
Defined.

(** The examples of C1 on the code. *)
Lemma calcular_performance_examples :
  calcular_performance Ex.precos_10_20 ["PETR4.SA"] None
    = Ok ("**PETR4.SA**: :green[100.00%]  " ++ nl) /\
  calcular_performance Ex.precos_5_5 ["PETR4.SA"] None
    = Ok ("**PETR4.SA**: :gray[0.00%]  " ++ nl) /\
  calcular_performance Ex.precos_0_5 ["PETR4.SA"] None
    = Ok ("**PETR4.SA**: Não foi possível calcular (valor inicial é zero).  " ++ nl) /\
  calcular_performance Ex.precos_um_ponto ["PETR4.SA"] None
    = Ok ("**PETR4.SA**: Dados insuficientes para cálculo no período.  " ++ nl) /\
  calcular_performance Ex.precos_sem_pontos ["PETR4.SA"] None
    = Ok ("**PETR4.SA**: Dados insuficientes para cálculo no período.  " ++ nl).
Proof. repeat split; vm_compute; reflexivity. Qed.

(** C1 as it is worded asks for a signed percentage, "+100.00%" for the
    series [10, 20]; the report carries no plus sign. *)
Lemma calcular_performance_no_plus_sign :
  ~ (exists line,
       calcular_performance Ex.precos_10_20 ["PETR4.SA"] None = Ok line /\
       Spec.performance_line Spec.signed_percentage "PETR4.SA"
         (dropna (column_at Ex.precos_10_20 0)) line).
Proof.
  intros [line [Hrun Hline]].
  assert (Hout : line = "**PETR4.SA**: :green[100.00%]  " ++ nl).
  { vm_compute in Hrun. injection Hrun as <-. reflexivity. }
  subst line.
  inversion Hline as [Hlen Heq | Hlen Hz Heq | v t Hlen Hz Hv Ht Heq];
    try (vm_compute in Heq; discriminate).
  assert (Hv1 : v = 1%float) by (rewrite Hv; vm_compute; reflexivity).
  rewrite Hv1 in Ht, Heq.
  destruct Ht as [Hp _]. rewrite (Hp eq_refl) in Heq.
  vm_compute in Heq. discriminate.
Qed.

End Performance.

(* ===================================================================== *)
(** ** Labels and columns                                                 *)
(* ===================================================================== *)

Section Labels.

Lemma get_loc_some_in (c : string) (cols : list string) (j : nat) :
  get_loc String.eqb c cols = Some j -> In c cols.
Proof.
  revert j. induction cols as [|x cols IH]; simpl; intros j H; [discriminate|].
  destruct (String.eqb c x) eqn:E.
  - left. symmetry. now apply String.eqb_eq.
  - destruct (get_loc String.eqb c cols) as [k|]; [|discriminate]. right. now apply (IH k).
Qed.

Lemma get_loc_none_not_in (c : string) (cols : list string) :
  get_loc String.eqb c cols = None -> ~ In c cols.
Proof.
  induction cols as [|x cols IH]; simpl; intros H; [tauto|].
  destruct (String.eqb c x) eqn:E; [discriminate|].
  destruct (get_loc String.eqb c cols) as [k|]; [discriminate|].
  intros [->|Hin]; [|now apply IH].
  rewrite String.eqb_refl in E. discriminate.
Qed.

Lemma get_loc_in_some (c : string) (cols : list string) :
  In c cols -> exists j, get_loc String.eqb c cols = Some j.
Proof.
  intros Hin. destruct (get_loc String.eqb c cols) as [j|] eqn:E; [now exists j|].
  now apply get_loc_none_not_in in E.
Qed.

(** The position found holds the label. *)
Lemma get_loc_nth (c : string) (cols : list string) (j : nat) :
  get_loc String.eqb c cols = Some j -> nth_error cols j = Some c.
Proof.
  revert j. induction cols as [|x cols IH]; simpl; intros j H; [discriminate|].
  destruct (String.eqb c x) eqn:E.
  - injection H as <-. apply String.eqb_eq in E. now subst.
  - destruct (get_loc String.eqb c cols) as [k|]; [|discriminate].
    injection H as <-. simpl. now apply IH.
Qed.

Lemma get_locs_ok (cs cols : list string) :
  (forall c, In c cs -> In c cols) -> exists js, get_locs cs cols = Ok js.
Proof.
  induction cs as [|c cs IH]; intros H; simpl.
  - now exists [].
  - destruct (get_loc_in_some c cols) as [j Hj]; [apply H; now left|].
    rewrite Hj. destruct IH as [js Hjs]; [intros x Hx; apply H; now right|].
    rewrite Hjs. simpl. now exists (j :: js).
Qed.

End Labels.

(* ===================================================================== *)
(** ** The ticker loader and the price fetcher (page 1)                   *)
(* ===================================================================== *)

Section Loading.

Import Page1.

Lemma letter_not_digit (c : ascii) : is_letter c = true -> is_digit c = false.
Proof.
  unfold is_letter, is_digit. generalize (nat_of_ascii c). intros n.
  repeat match goal with
         | |- context [(?a <=? ?b)%nat] => destruct (Nat.leb_spec a b)
         end; simpl; intros Hletter; try reflexivity; try discriminate; lia.
Qed.

Lemma code_field_not_integer (s : string) :
  code_field s = true -> integer_field s = false.
Proof.
  unfold code_field, integer_field, all_chars.
  destruct s as [|c s']; simpl; [discriminate|].
  intros H. apply andb_true_iff in H. destruct H as [H _].
  apply andb_true_iff in H. destruct H as [Hc _].
  now rewrite (letter_not_digit c Hc).
Qed.

Lemma code_field_not_empty (s : string) : code_field s = true -> String.eqb s "" = false.
Proof. destruct s; [discriminate | reflexivity]. Qed.

(** A column of codes is kept as the texts of its fields. *)
Lemma read_column_codes (infer : list string -> list pyval) (fields : list string) :
  Forall (fun s => code_field s = true) fields ->
  read_column infer fields = map PyStr fields.
Proof.
  intros H. unfold read_column. destruct H as [|s rest Hs Hrest]; [reflexivity|].
  simpl forallb at 1. rewrite (code_field_not_integer s Hs). simpl andb.
  assert (Hall : forall l, Forall (fun s => code_field s = true) l ->
            forallb (fun s => code_field s || String.eqb s "") l = true /\
            map (fun s => if String.eqb s "" then PyNaN else PyStr s) l = map PyStr l).
  { induction 1 as [|x l Hx _ [IH1 IH2]]; simpl; [now split|].
    rewrite Hx, IH1, IH2, (code_field_not_empty x Hx). now split. }
  destruct (Hall (s :: rest) (Forall_cons s Hs Hrest)) as [-> ->]. reflexivity.
Qed.

Lemma carregar_tickers_acoes_read (w : world) (base : csv) (fields : list string) :
  arquivos w ARQUIVO_TICKERS = Some base ->
  raw_column base "Código" = Ok fields ->
  carregar_tickers_acoes w =
    ([], Ok (map (fun item => str item ++ ".SA") (read_column (pd_infer w) fields))).
Proof.
  intros Hfile Hcol. unfold carregar_tickers_acoes, read_csv, csv_column.
  rewrite Hfile. simpl. rewrite Hcol. reflexivity.
Qed.

Lemma carregar_tickers_acoes_present (w : world) (base : csv) (codes : list string) :
  arquivos w ARQUIVO_TICKERS = Some base ->
  raw_column base "Código" = Ok codes ->
  Forall (fun s => code_field s = true) codes ->
  carregar_tickers_acoes w = ([], Ok (map (fun code => code ++ ".SA") codes)).
Proof.
  intros Hfile Hcol Hcodes.
  rewrite (carregar_tickers_acoes_read w Hfile Hcol), read_column_codes by exact Hcodes.
  now rewrite map_map.
Qed.

Lemma carregar_tickers_acoes_absent (w : world) :
  arquivos w ARQUIVO_TICKERS = None ->
  carregar_tickers_acoes w =
    ([Show (St.error "Erro: O arquivo 'IBOV.csv' não foi encontrado.");
      Show (St.info "Por favor, certifique-se de que o arquivo está na mesma pasta que o seu script Streamlit.")],
     Ok []).
Proof.
  intros Hfile. unfold carregar_tickers_acoes, read_csv. rewrite Hfile. reflexivity.
Qed.

(** C8, as the code has it.  When the ticker file is there, every record
    of it has as many fields as the header, and the fields under "Código"
    are codes (letters and digits, a letter first and a digit last), which
    the reader keeps as text, the loader writes nothing on the screen and
    returns those codes, each followed by ".SA", in the order of the file;
    when the file is not there, it shows an error and a hint, and returns
    the empty list, not an exception. *)
Theorem carregar_tickers_acoes_suffix (w : world) :
  (forall base codes,
     arquivos w ARQUIVO_TICKERS = Some base ->
     Forall (fun r => List.length r = List.length (csv_header base)) (csv_records base) ->
     raw_column base "Código" = Ok codes ->
     Forall (fun s => code_field s = true) codes ->
     carregar_tickers_acoes w = ([], Ok (map (fun code => code ++ ".SA") codes))) /\
  (arquivos w ARQUIVO_TICKERS = None ->
     carregar_tickers_acoes w =
       ([Show (St.error "Erro: O arquivo 'IBOV.csv' não foi encontrado.");
         Show (St.info "Por favor, certifique-se de que o arquivo está na mesma pasta que o seu script Streamlit.")],
        Ok [])).
Proof.
  split.
  - intros base codes Hfile _. now apply carregar_tickers_acoes_present.
  - apply carregar_tickers_acoes_absent.
Qed.

Lemma carregar_tickers_acoes_witness :
  carregar_tickers_acoes Ex.mundo = ([], Ok ["PETR4.SA"; "VALE3.SA"]) /\
  carregar_tickers_acoes Ex.mundo_sem_arquivo =
    ([Show (St.error "Erro: O arquivo 'IBOV.csv' não foi encontrado.");
      Show (St.info "Por favor, certifique-se de que o arquivo está na mesma pasta que o seu script Streamlit.")],
     Ok []).
Proof.
  split.
  - apply (proj1 (carregar_tickers_acoes_suffix Ex.mundo) Ex.ibov ["PETR4"; "VALE3"]).
    + reflexivity.
    + repeat constructor.
    + reflexivity.
    + repeat constructor.
  - exact (proj2 (carregar_tickers_acoes_suffix Ex.mundo_sem_arquivo) eq_refl).
Defined.

(** C8 as it is worded fails on a file whose code is written with digits
    alone: the reader takes the field "007" as the integer 7, and the
    loader returns "7.SA", which is not the code followed by ".SA". *)
Lemma carregar_tickers_acoes_numeric_code :
  arquivos Ex.mundo_numerico ARQUIVO_TICKERS = Some Ex.ibov_numerico /\
  raw_column Ex.ibov_numerico "Código" = Ok ["007"] /\
  carregar_tickers_acoes Ex.mundo_numerico = ([], Ok ["7.SA"]) /\
  ["7.SA"] <> map (fun code => code ++ ".SA") ["007"].
Proof. repeat split; try reflexivity. discriminate. Qed.

(** An empty field under "Código" is a missing value, written "nan". *)
Lemma carregar_tickers_acoes_empty_code :
  carregar_tickers_acoes
    (mkWorld (fun _ => Some (mkCsv ["Código"; "Ação"] [["PETR4"; "PETROBRAS"]; [""; "VALE"]]))
       Ex.provedor Ex.leitor)
  = ([], Ok ["PETR4.SA"; "nan.SA"]).
Proof. reflexivity. Qed.

Lemma setitem_columns (d : DataFrame Timestamp) (c : string) (s : Series) :
  columns (setitem d c s) =
    match get_loc String.eqb c (columns d) with
    | Some _ => columns d
    | None => (columns d ++ [c])%list
    end.
Proof. unfold setitem. destruct (get_loc String.eqb c (columns d)); reflexivity. Qed.

Lemma for_ticker_columns (dados_brutos : download) (empresas : list string) :
  forall fechamento,
    columns (for_ticker dados_brutos empresas fechamento) =
      (columns fechamento ++ Spec.novas dados_brutos (columns fechamento) empresas)%list.
Proof.
  induction empresas as [|ticker rest IH]; intros fechamento; simpl.
  - now rewrite app_nil_r.
  - destruct (lookup_ticker ticker (dl_tickers dados_brutos)) as [t|]; [|apply IH].
    rewrite IH, setitem_columns.
    destruct (get_loc String.eqb ticker (columns fechamento)); [reflexivity|].
    now rewrite <- app_assoc.
Qed.

Lemma novas_subsequence (dados_brutos : download) (empresas : list string) :
  forall seen, Spec.subsequence (Spec.novas dados_brutos seen empresas) empresas.
Proof.
  induction empresas as [|ticker rest IH]; intros seen; simpl.
  - constructor.
  - destruct (lookup_ticker ticker (dl_tickers dados_brutos)).
    + destruct (get_loc String.eqb ticker seen); constructor; apply IH.
    + constructor. apply IH.
Qed.

Lemma lookup_ticker_in (ticker : string) (l : list (string * ticker_data)) (t : ticker_data) :
  lookup_ticker ticker l = Some t -> In ticker (map fst l).
Proof.
  induction l as [|[k v] l IH]; simpl; [discriminate|].
  destruct (String.eqb ticker k) eqn:E.
  - intros _. left. symmetry. now apply String.eqb_eq.
  - intros H. right. now apply IH.
Qed.

Lemma novas_answered (dados_brutos : download) (empresas : list string) :
  forall seen c, In c (Spec.novas dados_brutos seen empresas) ->
    In c empresas /\ In c (map fst (dl_tickers dados_brutos)).
Proof.
  induction empresas as [|ticker rest IH]; intros seen c; simpl; [tauto|].
  destruct (lookup_ticker ticker (dl_tickers dados_brutos)) as [t|] eqn:Ht.
  - destruct (get_loc String.eqb ticker seen).
    + intros H. destruct (IH _ _ H). tauto.
    + intros [<-|H].
      * split; [now left | exact (lookup_ticker_in _ _ Ht)].
      * destruct (IH _ _ H). tauto.
  - intros H. destruct (IH _ _ H). tauto.
Qed.

(** C7.  Whatever symbols are asked for and whatever the provider answers,
    the fetcher asks once and returns a table whose columns keep some of
    the symbols asked for, in the order they were asked in; every column
    is a symbol asked for, and a symbol for which the provider has no
    answer is no column. *)
Theorem carregar_dados_columns (w : world) (empresas : list string)
    (dados_brutos : download) :
  yf_download w empresas DATA_INICIO DATA_FIM = Ok dados_brutos ->
  exists fechamento,
    carregar_dados w empresas =
      ([Download empresas DATA_INICIO DATA_FIM], Ok fechamento) /\
    Spec.subsequence (columns fechamento) empresas /\
    (forall c, In c (columns fechamento) -> In c empresas) /\
    (forall c, ~ In c (map fst (dl_tickers dados_brutos)) -> ~ In c (columns fechamento)).
Proof.
  intros Hdl. exists (for_ticker dados_brutos empresas empty_frame).
  assert (Hcols : columns (for_ticker dados_brutos empresas empty_frame)
                  = Spec.novas dados_brutos [] empresas)
    by (rewrite for_ticker_columns; reflexivity).
  split; [|rewrite Hcols; repeat split].
  - unfold carregar_dados, sbind, lift, emit, ret. simpl. rewrite Hdl. reflexivity.
  - apply novas_subsequence.
  - intros c Hc. now apply novas_answered in Hc.
  - intros c Habs Hc. apply novas_answered in Hc. tauto.
Qed.

Lemma carregar_dados_witness :
  exists fechamento,
    carregar_dados Ex.mundo ["PETR4.SA"; "XXXX3.SA"; "VALE3.SA"] =
      ([Download ["PETR4.SA"; "XXXX3.SA"; "VALE3.SA"] DATA_INICIO DATA_FIM], Ok fechamento) /\
    Spec.subsequence (columns fechamento) ["PETR4.SA"; "XXXX3.SA"; "VALE3.SA"] /\
    (forall c, In c (columns fechamento) -> In c ["PETR4.SA"; "XXXX3.SA"; "VALE3.SA"]) /\
    (forall c,
       ~ In c (map fst (dl_tickers
                 (mkDownload [Ex.jan 2; Ex.jan 3]
                    [("PETR4.SA", Ex.seria [10%float; 20%float]);
                     ("VALE3.SA", Ex.seria [5%float; 5%float])]))) ->
       ~ In c (columns fechamento)).
Proof.
  apply (@carregar_dados_columns Ex.mundo ["PETR4.SA"; "XXXX3.SA"; "VALE3.SA"]).
  reflexivity.
Defined.

(** The table fetched in that example. *)
Lemma carregar_dados_example :
  snd (carregar_dados Ex.mundo ["PETR4.SA"; "XXXX3.SA"; "VALE3.SA"]) =
    Ok (mkDF ["PETR4.SA"; "VALE3.SA"]
          [(Ex.jan 2, [10%float; 5%float]); (Ex.jan 3, [20%float; 5%float])]).
Proof. vm_compute. reflexivity. Qed.

End Loading.

(* ===================================================================== *)
(** ** The order of timestamps and the sort of the index                  *)
(* ===================================================================== *)

Section Order.

Ltac by_components a b :=
  destruct a as [ya ma da], b as [yb mb db]; unfold ts_compare; simpl;
  destruct (Z.compare_spec ya yb); destruct (Z.compare_spec ma mb);
  destruct (Z.compare_spec da db).

Lemma ts_leb_iff (a b : Timestamp) :
  ts_leb a b = true <->
  (year a < year b \/
   (year a = year b /\ (month a < month b \/ (month a = month b /\ day a <= day b))))%Z.
Proof.
  unfold ts_leb. by_components a b; split; intros Hx;
    try discriminate; try lia; reflexivity.
Qed.

Lemma ts_ltb_iff (a b : Timestamp) :
  ts_ltb a b = true <->
  (year a < year b \/
   (year a = year b /\ (month a < month b \/ (month a = month b /\ day a < day b))))%Z.
Proof.
  unfold ts_ltb. by_components a b; split; intros Hx;
    try discriminate; try lia; reflexivity.
Qed.

Lemma ts_leb_refl (a : Timestamp) : ts_leb a a = true.
Proof. apply ts_leb_iff. lia. Qed.

Lemma ts_leb_trans (a b c : Timestamp) :
  ts_leb a b = true -> ts_leb b c = true -> ts_leb a c = true.
Proof. rewrite !ts_leb_iff. lia. Qed.

Lemma ts_ltb_leb (a b : Timestamp) : ts_ltb a b = true -> ts_leb a b = true.
Proof. rewrite ts_ltb_iff, ts_leb_iff. lia. Qed.

Lemma ts_ltb_false_leb (a b : Timestamp) : ts_ltb a b = false -> ts_leb b a = true.
Proof.
  intros H. apply ts_leb_iff.
  destruct (ts_ltb_iff a b) as [_ Hr].
  assert (Hn : ~ (year a < year b \/
      (year a = year b /\ (month a < month b \/ (month a = month b /\ day a < day b))))%Z)
    by (intros Hc; rewrite (Hr Hc) in H; discriminate).
  lia.
Qed.

Lemma ts_ltb_not_leb (a b : Timestamp) :
  ts_ltb a b = true -> ts_leb b a = true -> False.
Proof. rewrite ts_ltb_iff, ts_leb_iff. lia. Qed.

Lemma insert_row_in (r x : Timestamp * list float) (l : list (Timestamp * list float)) :
  In x (insert_row r l) <-> x = r \/ In x l.
Proof.
  induction l as [|y l IH]; simpl.
  - intuition congruence.
  - destruct (ts_ltb (fst r) (fst y)); simpl; [intuition congruence|].
    rewrite IH. intuition congruence.
Qed.

Lemma insert_row_sorted (r : Timestamp * list float) (l : list (Timestamp * list float)) :
  StronglySorted row_le l -> StronglySorted row_le (insert_row r l).
Proof.
  induction l as [|y l IH]; simpl; intros Hs.
  - constructor; constructor.
  - inversion Hs as [|? ? Hl Hy]; subst.
    destruct (ts_ltb (fst r) (fst y)) eqn:E.
    + constructor; [exact Hs|]. constructor.
      * now apply ts_ltb_leb.
      * eapply Forall_impl; [|exact Hy]. intros z Hz. unfold row_le in *.
        apply ts_leb_trans with (fst y); [now apply ts_ltb_leb | exact Hz].
    + constructor; [now apply IH|].
      apply Forall_forall. intros z Hz. apply insert_row_in in Hz.
      destruct Hz as [->|Hz].
      * now apply ts_ltb_false_leb.
      * rewrite Forall_forall in Hy. now apply Hy.
Qed.

Lemma fold_insert_in (l acc : list (Timestamp * list float)) (x : Timestamp * list float) :
  In x (fold_left (fun a r => insert_row r a) l acc) <-> In x l \/ In x acc.
Proof.
  revert acc. induction l as [|r l IH]; intros acc; simpl; [tauto|].
  rewrite IH, insert_row_in. intuition congruence.
Qed.

Lemma fold_insert_sorted (l acc : list (Timestamp * list float)) :
  StronglySorted row_le acc ->
  StronglySorted row_le (fold_left (fun a r => insert_row r a) l acc).
Proof.
  revert acc. induction l as [|r l IH]; intros acc H; simpl; [exact H|].
  apply IH. now apply insert_row_sorted.
Qed.

Lemma sort_index_in (l : list (Timestamp * list float)) (x : Timestamp * list float) :
  In x (sort_index l) <-> In x l.
Proof. unfold sort_index. rewrite fold_insert_in. simpl. tauto. Qed.

Lemma sort_index_sorted (l : list (Timestamp * list float)) :
  StronglySorted row_le (sort_index l).
Proof. apply fold_insert_sorted. constructor. Qed.

Lemma filter_sorted {A} (R : A -> A -> Prop) (p : A -> bool) (l : list A) :
  StronglySorted R l -> StronglySorted R (filter p l).
Proof.
  induction 1 as [|x l Hl IH Hx]; simpl; [constructor|].
  destruct (p x); [|exact IH]. constructor; [exact IH|].
  apply Forall_forall. intros y Hy. apply filter_In in Hy.
  rewrite Forall_forall in Hx. now apply Hx.
Qed.

(** In a sorted list every row is at most the last one. *)
Lemma sorted_last (l : list (Timestamp * list float)) (z : Timestamp * list float) :
  StronglySorted row_le (l ++ [z]) -> forall x, In x l -> row_le x z.
Proof.
  induction l as [|y l IH]; simpl; intros Hs x Hx; [contradiction|].
  inversion Hs as [|? ? Hl Hy]; subst. destruct Hx as [<-|Hx].
  - rewrite Forall_forall in Hy. apply Hy. apply in_or_app. right. now left.
  - now apply IH.
Qed.

End Order.

(* ===================================================================== *)
(** ** The first and the last label                                       *)
(* ===================================================================== *)

Section Bounds.

Lemma ts_min_le (l : list Timestamp) (m : Timestamp) :
  ts_min l = Some m -> forall x, In x l -> ts_leb m x = true.
Proof.
  revert m. induction l as [|t l IH]; simpl; intros m H x Hx; [contradiction|].
  destruct (ts_min l) as [u|] eqn:E.
  - injection H as <-. destruct (ts_ltb u t) eqn:Hlt.
    + destruct Hx as [<-|Hx]; [now apply ts_ltb_leb | now apply IH].
    + destruct Hx as [<-|Hx]; [apply ts_leb_refl|].
      apply ts_leb_trans with u; [now apply ts_ltb_false_leb | now apply IH].
  - injection H as <-. destruct l; [|simpl in E; destruct (ts_min l); discriminate].
    destruct Hx as [<-|[]]. apply ts_leb_refl.
Qed.

Lemma ts_max_ge (l : list Timestamp) (m : Timestamp) :
  ts_max l = Some m -> forall x, In x l -> ts_leb x m = true.
Proof.
  revert m. induction l as [|t l IH]; simpl; intros m H x Hx; [contradiction|].
  destruct (ts_max l) as [u|] eqn:E.
  - injection H as <-. destruct (ts_ltb t u) eqn:Hlt.
    + destruct Hx as [<-|Hx]; [now apply ts_ltb_leb | now apply IH].
    + destruct Hx as [<-|Hx]; [apply ts_leb_refl|].
      apply ts_leb_trans with u; [now apply IH | now apply ts_ltb_false_leb].
  - injection H as <-. destruct l; [|simpl in E; destruct (ts_max l); discriminate].
    destruct Hx as [<-|[]]. apply ts_leb_refl.
Qed.

Lemma ts_between (lo a b hi : Timestamp) :
  ts_leb lo a = true -> ts_ltb a b = true -> ts_leb b hi = true -> ts_ltb lo hi = true.
Proof. rewrite !ts_leb_iff, !ts_ltb_iff. lia. Qed.

(** Two labels of which one is before the other put the first label of
    the index before the last. *)
Lemma two_dates_bounds (l : list Timestamp) (lo hi a b : Timestamp) :
  ts_min l = Some lo -> ts_max l = Some hi ->
  In a l -> In b l -> ts_ltb a b = true -> ts_ltb lo hi = true.
Proof.
  intros Hlo Hhi Ha Hb Hab.
  apply ts_between with a b; [exact (ts_min_le l Hlo a Ha) | exact Hab |
                              exact (ts_max_ge l Hhi b Hb)].
Qed.

End Bounds.

(* ===================================================================== *)
(** ** Scripts                                                            *)
(* ===================================================================== *)

Section Scripts.

Lemma sbind_snd {A B} (m : script A) (k : A -> script B) :
  snd (sbind m k) = match snd m with Ok a => snd (k a) | Raise e => Raise e end.
Proof. unfold sbind. destruct (snd m); reflexivity. Qed.

Lemma sbind_fst {A B} (m : script A) (k : A -> script B) :
  fst (sbind m k) =
    match snd m with Ok a => (fst m ++ fst (k a))%list | Raise _ => fst m end.
Proof. unfold sbind. destruct (snd m); reflexivity. Qed.

Lemma ts_min_some (l : list Timestamp) : l <> [] -> exists t, ts_min l = Some t.
Proof.
  destruct l as [|t l]; [congruence|]. intros _. simpl.
  destruct (ts_min l); eexists; reflexivity.
Qed.

Lemma ts_max_some (l : list Timestamp) : l <> [] -> exists t, ts_max l = Some t.
Proof.
  destruct l as [|t l]; [congruence|]. intros _. simpl.
  destruct (ts_max l); eexists; reflexivity.
Qed.

Lemma index_min_ok (d : DataFrame Timestamp) :
  rows d <> [] -> exists t, index_min d = Ok t.
Proof.
  intros H. unfold index_min. destruct (ts_min_some (l := index d)) as [t ->].
  - unfold index. destruct (rows d); [congruence | discriminate].
  - now exists t.
Qed.

Lemma index_max_ok (d : DataFrame Timestamp) :
  rows d <> [] -> exists t, index_max d = Ok t.
Proof.
  intros H. unfold index_max. destruct (ts_max_some (l := index d)) as [t ->].
  - unfold index. destruct (rows d); [congruence | discriminate].
  - now exists t.
Qed.

End Scripts.

(* ===================================================================== *)
(** ** The single-symbol relabelling (page 1)                             *)
(* ===================================================================== *)

Section SingleSymbol.

Import Page1.

(** The only column of a selection, within a period, is the column it was
    selected from, within that period. *)
Lemma selected_column_in_window (rs : list (Timestamp * list float)) (a b : Timestamp)
    (j : nat) :
  map (fun r => cell 0 (snd r))
    (filter (fun r => ts_leb a (fst r) && ts_leb (fst r) b)
       (map (fun r => (fst r, [cell j (snd r)])) rs)) =
  map (fun r => cell j (snd r))
    (filter (fun r => ts_leb a (fst r) && ts_leb (fst r) b) rs).
Proof.
  induction rs as [|r rs IH]; simpl; [reflexivity|].
  destruct (ts_leb a (fst r) && ts_leb (fst r) b); simpl; now rewrite ?IH.
Qed.

(** C9.  When exactly one symbol is chosen, and it labels column [j] of a
    table that has two rows of different dates (so that the slider has a
    range), the sidebar returns a table whose only column is labelled
    "Close", together with the symbol itself; the report computed from
    what the sidebar returned is the line of that symbol, read from column
    [j] of the table within the chosen period, and it opens with the name
    of the symbol. *)
Theorem configurar_sidebar_round_trip (ui : widgets) (dados : DataFrame Timestamp)
    (acao : string) (j : nat) :
  page1_acoes ui = [acao] ->
  get_loc String.eqb acao (columns dados) = Some j ->
  (exists r1 r2, In r1 (rows dados) /\ In r2 (rows dados) /\
                 ts_ltb (fst r1) (fst r2) = true) ->
  exists dados_final a b,
    snd (configurar_sidebar ui dados) = Ok (dados_final, [acao], Some acao) /\
    columns dados_final = ["Close"] /\
    (forall p, periodo ui = St.Entered p -> (a, b) = p) /\
    calcular_performance dados_final [acao] (Some acao) =
      Ok (linha_performance acao (dropna (column_at (loc_slice dados a b) j))) /\
    String.prefix ("**" ++ acao ++ "**: ")
      (linha_performance acao (dropna (column_at (loc_slice dados a b) j))) = true.
Proof.
  intros Hsel Hj [r1 [r2 [Hr1 [Hr2 Hdates]]]].
  assert (Hrows : rows dados <> []) by (intros E; rewrite E in Hr1; contradiction).
  set (sel := mkDF [acao] (map (fun r => (fst r, [cell j (snd r)])) (rows dados))).
  assert (Hsel_idx : index (rename sel acao "Close") = index dados).
  { unfold index. simpl. now rewrite map_map. }
  assert (Hne : index dados <> []).
  { unfold index. destruct (rows dados); [congruence | discriminate]. }
  destruct (ts_min_some Hne) as [lo Hmin]. destruct (ts_max_some Hne) as [hi Hmax].
  assert (Hlo : index_min (rename sel acao "Close") = Ok lo)
    by (unfold index_min; now rewrite Hsel_idx, Hmin).
  assert (Hhi : index_max (rename sel acao "Close") = Ok hi)
    by (unfold index_max; now rewrite Hsel_idx, Hmax).
  assert (Hrange : ts_ltb lo hi = true).
  { apply (@two_dates_bounds (index dados) lo hi (fst r1) (fst r2) Hmin Hmax);
      [unfold index; now apply in_map | unfold index; now apply in_map | exact Hdates]. }
  set (w := St.value_of (periodo ui) (lo, hi)).
  exists (loc_slice (rename sel acao "Close") (fst w) (snd w)), (fst w), (snd w).
  split; [|split; [|split; [|split]]].
  - unfold configurar_sidebar. rewrite Hsel.
    rewrite !sbind_snd. simpl snd at 1 2.
    unfold getitem_list. simpl get_locs. rewrite Hj. simpl.
    fold sel. rewrite Hlo, Hhi.
    assert (Hslider : St.slider_bounds lo hi = Ok tt)
      by (unfold St.slider_bounds; now rewrite Hrange).
    cbv beta iota delta [sbind lift fst snd]. rewrite Hslider. reflexivity.
  - simpl. now rewrite String.eqb_refl.
  - intros p Hp. unfold w. rewrite Hp. simpl. now destruct p.
  - unfold calcular_performance, colunas. simpl.
    rewrite String.eqb_refl. simpl. rewrite String.eqb_refl. simpl.
    f_equal. f_equal. f_equal. unfold column_at. simpl.
    apply selected_column_in_window.
  - unfold linha_performance.
    destruct (1 <? _)%nat; [destruct (negb _)|];
      do 2 apply prefix_skip; reflexivity.
Qed.

Lemma configurar_sidebar_round_trip_witness :
  exists dados_final a b,
    snd (configurar_sidebar (mkWidgets ["PETR4.SA"] St.Untouched) Ex.precos_10_20)
      = Ok (dados_final, ["PETR4.SA"], Some "PETR4.SA") /\
    columns dados_final = ["Close"] /\
    (forall p, periodo (mkWidgets ["PETR4.SA"] St.Untouched) = St.Entered p -> (a, b) = p) /\
    calcular_performance dados_final ["PETR4.SA"] (Some "PETR4.SA") =
      Ok (linha_performance "PETR4.SA"
            (dropna (column_at (loc_slice Ex.precos_10_20 a b) 0))) /\
    String.prefix ("**" ++ "PETR4.SA" ++ "**: ")
      (linha_performance "PETR4.SA"
         (dropna (column_at (loc_slice Ex.precos_10_20 a b) 0))) = true.
Proof.
  apply configurar_sidebar_round_trip.
  - reflexivity.
  - reflexivity.
  - exists (Ex.jan 2, [nan]), (Ex.jan 3, [10%float]). simpl. tauto.
Defined.

(** On a table whose rows all have one date the slider has no range, and
    the sidebar ends with the exception of the slider. *)
Lemma configurar_sidebar_one_date :
  snd (configurar_sidebar (mkWidgets ["PETR4.SA"] St.Untouched)
         (mkDF ["PETR4.SA"] [(Ex.jan 2, [10%float])]))
  = Raise (StreamlitAPIException "Slider `min_value` must be less than the `max_value`.").
Proof. reflexivity. Qed.

(** The sidebar and the report on that table, evaluated. *)
Lemma configurar_sidebar_example :
  snd (configurar_sidebar (mkWidgets ["PETR4.SA"] St.Untouched) Ex.precos_10_20) =
    Ok (mkDF ["Close"]
          [(Ex.jan 2, [nan]); (Ex.jan 3, [10%float]); (Ex.jan 4, [nan]); (Ex.jan 5, [20%float])],
        ["PETR4.SA"], Some "PETR4.SA") /\
  calcular_performance
    (mkDF ["Close"]
       [(Ex.jan 2, [nan]); (Ex.jan 3, [10%float]); (Ex.jan 4, [nan]); (Ex.jan 5, [20%float])])
    ["PETR4.SA"] (Some "PETR4.SA")
    = Ok ("**PETR4.SA**: :green[100.00%]  " ++ nl).
Proof. split; vm_compute; reflexivity. Qed.

End SingleSymbol.

(* ===================================================================== *)
(** ** Lists, rows and masks                                              *)
(* ===================================================================== *)

Section Rows.

(** All NaN are one value. *)
Lemma is_nan_eq (x : float) : PrimFloat.is_nan x = true -> x = nan.
Proof.
  intros H. apply is_nan_inv in H.
  rewrite <- (SF2Prim_Prim2SF x), H. reflexivity.
Qed.

Lemma notna_false_eq (x : float) : notna x = false -> x = nan.
Proof.
  unfold notna. intros H. apply is_nan_eq. now destruct (PrimFloat.is_nan x).
Qed.

Lemma notna_nan : notna nan = false.
Proof. reflexivity. Qed.

Lemma zip_with_map_r {A B C} (f : A -> B -> C) (g : A -> B) (l : list A) :
  zip_with f l (map g l) = map (fun x => f x (g x)) l.
Proof. induction l as [|x l IH]; simpl; [reflexivity | now rewrite IH]. Qed.

Lemma zip_with_map_map {A B C D} (f : B -> C -> D) (g : A -> B) (h : A -> C) (l : list A) :
  zip_with f (map g l) (map h l) = map (fun x => f (g x) (h x)) l.
Proof. induction l as [|x l IH]; simpl; [reflexivity | now rewrite IH]. Qed.

Lemma zip_with_length {A B C} (f : A -> B -> C) (l : list A) (m : list B) :
  List.length l = List.length m -> List.length (zip_with f l m) = List.length l.
Proof.
  revert m. induction l as [|x l IH]; intros [|y m]; simpl; intros H;
    try discriminate; [reflexivity | now rewrite IH by congruence].
Qed.

(** Or-ing into an all-false row of the same width gives the other row. *)
Lemma zip_orb_false {A B} (cols : list A) (p : B -> bool) (r : list B) :
  List.length r = List.length cols ->
  zip_with orb (map (fun _ => false) cols) (map p r) = map p r.
Proof.
  revert cols. induction r as [|x r IH]; intros [|c cols]; simpl; intros H;
    try discriminate; [reflexivity | now rewrite IH by congruence].
Qed.

Lemma getitem_list_rectangular {L} (d d' : DataFrame L) (cs : list string) :
  getitem_list d cs = Ok d' -> rectangular d'.
Proof.
  unfold getitem_list. destruct (get_locs cs (columns d)) as [js|e] eqn:E; [|discriminate].
  simpl. intros H. injection H as <-. unfold rectangular. simpl.
  assert (Hlen : List.length js = List.length cs).
  { clear -E. revert js E. induction cs as [|c cs IH]; simpl; intros js E.
    - injection E as <-. reflexivity.
    - destruct (get_loc String.eqb c (columns d)); [|discriminate].
      destruct (get_locs cs (columns d)) as [ks|]; [|discriminate].
      simpl in E. injection E as <-. simpl. now rewrite (IH ks). }
  apply Forall_forall. intros r Hr. apply in_map_iff in Hr. destruct Hr as [r0 [<- _]].
  simpl. now rewrite length_map.
Qed.

Lemma loc_slice_rectangular (d : DataFrame Timestamp) (a b : Timestamp) :
  rectangular d -> rectangular (loc_slice d a b).
Proof.
  unfold rectangular. simpl. intros H. apply Forall_forall. intros r Hr.
  apply filter_In in Hr. destruct Hr as [Hr _].
  rewrite Forall_forall in H. now apply H.
Qed.

Lemma mask_or_false (p : float -> bool) (d : DataFrame Timestamp) :
  rectangular d -> mask_or (mask_false d) (compare_cells p d) = compare_cells p d.
Proof.
  unfold rectangular, mask_or, mask_false, compare_cells.
  induction (rows d) as [|r rs IH]; simpl; intros H; [reflexivity|].
  inversion H as [|? ? Hr Hrs]; subst.
  rewrite zip_orb_false by exact Hr. now rewrite IH.
Qed.

Lemma mask_or_compare (p q : float -> bool) {L} (d : DataFrame L) :
  mask_or (compare_cells p d) (compare_cells q d) =
  compare_cells (fun x => p x || q x) d.
Proof.
  unfold mask_or, compare_cells.
  induction (rows d) as [|r rs IH]; simpl; [reflexivity|].
  now rewrite zip_with_map_map, IH.
Qed.

Lemma where_compare (p : float -> bool) {L} (d : DataFrame L) :
  where_ d (compare_cells p d) =
  mkDF (columns d)
    (map (fun r => (fst r, map (fun x => if p x then x else nan) (snd r))) (rows d)).
Proof.
  unfold where_, compare_cells. f_equal.
  induction (rows d) as [|r rs IH]; simpl; [reflexivity|].
  now rewrite zip_with_map_r, IH.
Qed.

Lemma dropna_all_has_value {L} (d : DataFrame L) :
  Forall (fun r => has_value (snd r) = true) (rows (dropna_all d)).
Proof.
  simpl. apply Forall_forall. intros r Hr. now apply filter_In in Hr.
Qed.

End Rows.

(* ===================================================================== *)
(** ** The filters of the monthly view (page 2)                           *)
(* ===================================================================== *)

Section Filters.

Import Page2.

Lemma rows_identity {L} (rs : list (L * list float)) :
  map (fun r => (fst r, map (fun x : float => x) (snd r))) rs = rs.
Proof.
  induction rs as [|[t r] rs IH]; simpl; [reflexivity|].
  now rewrite map_id, IH.
Qed.

Ltac same_cells :=
  f_equal; apply map_ext; intros r; f_equal; apply map_ext; intros x;
  unfold Spec.direction_cell, Spec.retained, gt0, lt0, eq0; simpl;
  destruct (0 <? x)%float, (x <? 0)%float, (x =? 0)%float; reflexivity.

(** The mask built by the block is the direction filter of the
    specification, cell by cell. *)
Lemma aplicar_filtros_direction (ui : widgets) (d : DataFrame Timestamp) :
  rectangular d ->
  aplicar_filtros_variacao (filtros_marcados ui) d =
    mkDF (columns d) (map (fun r => (fst r, map (Spec.direction_cell ui) (snd r))) (rows d)).
Proof.
  intros Hrect. destruct ui as [acoes di df alta baixa estavel].
  destruct alta, baixa, estavel;
    unfold aplicar_filtros_variacao, filtros_marcados; simpl;
    rewrite ?(mask_or_false _ Hrect), ?mask_or_compare, ?where_compare.
  - same_cells.
  - same_cells.
  - same_cells.
  - same_cells.
  - same_cells.
  - same_cells.
  - same_cells.
  - unfold Spec.direction_cell. simpl. rewrite rows_identity. now destruct d.
Qed.

(** What the function returns, the drawing of the widgets left aside. *)
Lemma configurar_filtros_snd (ui : widgets) (dados_variacao : DataFrame Timestamp) :
  snd (configurar_filtros ui dados_variacao) =
    (dados_filtrados <- getitem_list dados_variacao (acoes_selecionadas ui dados_variacao) ;;
     data_minima <- index_min dados_filtrados ;;
     data_maxima <- index_max dados_filtrados ;;
     match St.value_of (page2_data_inicial ui) (Some (um_ano_antes data_minima data_maxima)),
           St.value_of (page2_data_final ui) (Some data_maxima) with
     | Some data_inicial, Some data_final =>
         if ts_ltb data_final data_inicial then Ok empty_frame
         else Ok (dropna_all (aplicar_filtros_variacao (filtros_marcados ui)
                                (loc_slice dados_filtrados data_inicial data_final)))
     | _, _ => Ok empty_frame
     end).
Proof.
  unfold configurar_filtros.
  destruct (getitem_list dados_variacao (acoes_selecionadas ui dados_variacao))
    as [dados_filtrados|e]; [|reflexivity].
  simpl Py.bind.
  destruct (index_min dados_filtrados) as [lo|e] eqn:Hlo;
    [|unfold sbind; simpl; rewrite Hlo; reflexivity].
  destruct (index_max dados_filtrados) as [hi|e] eqn:Hhi;
    [|unfold sbind; simpl; rewrite Hlo; simpl; rewrite Hhi; reflexivity].
  unfold sbind. simpl. rewrite Hlo. simpl. rewrite Hhi. simpl.
  destruct (St.value_of (page2_data_inicial ui) (Some (um_ano_antes lo hi))) as [a|];
    [|destruct (St.value_of (page2_data_final ui) (Some hi)); reflexivity].
  destruct (St.value_of (page2_data_final ui) (Some hi)) as [b|]; [|reflexivity].
  destruct (ts_ltb b a); reflexivity.
Qed.

Lemma configurar_filtros_direction_at (ui : widgets)
    (dados_variacao dados_filtrados : DataFrame Timestamp) (lo hi a b : Timestamp) :
  getitem_list dados_variacao (acoes_selecionadas ui dados_variacao) = Ok dados_filtrados ->
  index_min dados_filtrados = Ok lo ->
  index_max dados_filtrados = Ok hi ->
  St.value_of (page2_data_inicial ui) (Some (um_ano_antes lo hi)) = Some a ->
  St.value_of (page2_data_final ui) (Some hi) = Some b ->
  ts_ltb b a = false ->
  snd (configurar_filtros ui dados_variacao) =
    Ok (mkDF (columns dados_filtrados)
          (filter (fun r => has_value (snd r))
             (map (fun r => (fst r, map (Spec.direction_cell ui) (snd r)))
                (rows (loc_slice dados_filtrados a b))))).
Proof.
  intros Hsel Hlo Hhi Ha Hb Hab.
  rewrite configurar_filtros_snd, Hsel. simpl. rewrite Hlo. simpl. rewrite Hhi. simpl.
  rewrite Ha, Hb, Hab.
  rewrite aplicar_filtros_direction
    by (apply loc_slice_rectangular; exact (getitem_list_rectangular _ _ Hsel)).
  reflexivity.
Qed.

Lemma configurar_filtros_date_error_at (ui : widgets)
    (dados_variacao dados_filtrados : DataFrame Timestamp) (lo hi a b : Timestamp) :
  getitem_list dados_variacao (acoes_selecionadas ui dados_variacao) = Ok dados_filtrados ->
  index_min dados_filtrados = Ok lo ->
  index_max dados_filtrados = Ok hi ->
  St.value_of (page2_data_inicial ui) (Some (um_ano_antes lo hi)) = Some a ->
  St.value_of (page2_data_final ui) (Some hi) = Some b ->
  ts_ltb b a = true ->
  snd (configurar_filtros ui dados_variacao) = Ok empty_frame /\
  last (fst (configurar_filtros ui dados_variacao)) (Show (St.write "")) =
    Show (St.error "A data inicial não pode ser posterior à data final").
Proof.
  intros Hsel Hlo Hhi Ha Hb Hab. split.
  - rewrite configurar_filtros_snd, Hsel. simpl. rewrite Hlo. simpl. rewrite Hhi. simpl.
    now rewrite Ha, Hb, Hab.
  - unfold configurar_filtros. rewrite Hsel. unfold sbind. simpl.
    rewrite Hlo. simpl. rewrite Hhi. simpl. rewrite Ha, Hb, Hab. reflexivity.
Qed.

Lemma acoes_selecionadas_in (ui : widgets) (d : DataFrame Timestamp) :
  (forall c, In c (page2_acoes ui) -> In c (columns d)) ->
  forall c, In c (acoes_selecionadas ui d) -> In c (columns d).
Proof.
  unfold acoes_selecionadas. intros H c. destruct (page2_acoes ui); [tauto | apply H].
Qed.

Lemma getitem_list_index {L} (d d' : DataFrame L) (cs : list string) :
  getitem_list d cs = Ok d' -> index d' = index d /\ columns d' = cs.
Proof.
  unfold getitem_list. destruct (get_locs cs (columns d)) as [js|e]; [|discriminate].
  simpl. intros H. injection H as <-. split; [|reflexivity].
  unfold index. simpl. rewrite map_map. reflexivity.
Qed.

(** With symbols that are columns, on a table that has rows, the function
    gets as far as reading the two dates: the selection is made, and the
    first and last label of the table are found. *)
Lemma configurar_filtros_reaches (ui : widgets) (d : DataFrame Timestamp) :
  (forall c, In c (page2_acoes ui) -> In c (columns d)) ->
  rows d <> [] ->
  exists dados_filtrados lo hi,
    getitem_list d (acoes_selecionadas ui d) = Ok dados_filtrados /\
    index_min dados_filtrados = Ok lo /\ index_max dados_filtrados = Ok hi /\
    ts_min (index d) = Some lo /\ ts_max (index d) = Some hi.
Proof.
  intros Hsel Hrows.
  destruct (get_locs_ok (acoes_selecionadas ui d) (columns d)
              (acoes_selecionadas_in ui d Hsel)) as [js Hjs].
  assert (Hget : exists df, getitem_list d (acoes_selecionadas ui d) = Ok df).
  { unfold getitem_list. rewrite Hjs. simpl. eexists. reflexivity. }
  destruct Hget as [df Hdf]. destruct (getitem_list_index _ _ Hdf) as [Hidx _].
  assert (Hne : index d <> []).
  { unfold index. destruct (rows d); [congruence | discriminate]. }
  destruct (ts_min_some Hne) as [lo Hlo]. destruct (ts_max_some Hne) as [hi Hhi].
  exists df, lo, hi. unfold index_min, index_max. rewrite Hidx, Hlo, Hhi. tauto.
Qed.

(** C3.  On a table that has rows, with chosen symbols that are columns of
    it, the selection [dados_filtrados] of those columns is made and the
    first and last label [lo], [hi] are found; whenever the two dates read
    are [a] and [b] with [a] not after [b], the function returns the rows
    of the selection from [a] to [b], every cell passed through the
    direction filter, without the rows this leaves with no value.  The
    direction filter: with some of Alta, Baixa, Estável checked a cell is
    kept when its value is above zero, below zero or zero for a checked
    one, and is missing otherwise; with none checked the cells are as they
    were. *)
Theorem configurar_filtros_direction (ui : widgets) (dados_variacao : DataFrame Timestamp) :
  (forall c, In c (page2_acoes ui) -> In c (columns dados_variacao)) ->
  rows dados_variacao <> [] ->
  exists dados_filtrados lo hi,
    getitem_list dados_variacao (acoes_selecionadas ui dados_variacao) = Ok dados_filtrados /\
    ts_min (index dados_variacao) = Some lo /\
    ts_max (index dados_variacao) = Some hi /\
    forall a b,
      St.value_of (page2_data_inicial ui) (Some (um_ano_antes lo hi)) = Some a ->
      St.value_of (page2_data_final ui) (Some hi) = Some b ->
      ts_ltb b a = false ->
      snd (configurar_filtros ui dados_variacao) =
        Ok (mkDF (columns dados_filtrados)
              (filter (fun r => has_value (snd r))
                 (map (fun r => (fst r, map (Spec.direction_cell ui) (snd r)))
                    (rows (loc_slice dados_filtrados a b))))).
Proof.
  intros Hsel Hrows.
  destruct (configurar_filtros_reaches ui dados_variacao Hsel Hrows)
    as [df [lo [hi [Hdf [Hlo [Hhi [Hmin Hmax]]]]]]].
  exists df, lo, hi. repeat split; try assumption.
  intros a b Ha Hb Hab.
  exact (configurar_filtros_direction_at ui dados_variacao Hdf Hlo Hhi Ha Hb Hab).
Qed.

(** Only Alta checked on the single column [+1%, -1%, 0%], the months from
    1 January on: the row of +1% is the one that stays. *)
Lemma configurar_filtros_direction_witness :
  snd (configurar_filtros Ex.apenas_altas Ex.variacoes) =
    Ok (mkDF ["PETR4.SA"]
          (filter (fun r => has_value (snd r))
             (map (fun r => (fst r, map (Spec.direction_cell Ex.apenas_altas) (snd r)))
                (rows (loc_slice Ex.variacoes (mkTs 2024 1 1) (mkTs 2024 3 31)))))).
Proof.
  destruct (@configurar_filtros_direction Ex.apenas_altas Ex.variacoes)
    as [df [lo [hi [Hdf [Hlo [Hhi H]]]]]].
  - intros c [].
  - discriminate.
  - injection Hdf as <-. injection Hlo as <-. injection Hhi as <-.
    exact (H (mkTs 2024 1 1) (mkTs 2024 3 31) eq_refl eq_refl eq_refl).
Defined.

Lemma configurar_filtros_direction_example :
  snd (configurar_filtros Ex.apenas_altas Ex.variacoes) =
    Ok (mkDF ["PETR4.SA"] [(mkTs 2024 1 31, [0.01%float])]).
Proof. vm_compute. reflexivity. Qed.

(** C4.  On a table that has rows, with chosen symbols that are columns of
    it, the first and last label [lo], [hi] are found, and whenever the
    two dates read are [a] and [b] with [a] after [b], the function
    returns the empty table, raising nothing, and the last thing it shows
    is the validation error. *)
Theorem configurar_filtros_date_error (ui : widgets) (dados_variacao : DataFrame Timestamp) :
  (forall c, In c (page2_acoes ui) -> In c (columns dados_variacao)) ->
  rows dados_variacao <> [] ->
  exists lo hi,
    ts_min (index dados_variacao) = Some lo /\
    ts_max (index dados_variacao) = Some hi /\
    forall a b,
      St.value_of (page2_data_inicial ui) (Some (um_ano_antes lo hi)) = Some a ->
      St.value_of (page2_data_final ui) (Some hi) = Some b ->
      ts_ltb b a = true ->
      snd (configurar_filtros ui dados_variacao) = Ok empty_frame /\
      last (fst (configurar_filtros ui dados_variacao)) (Show (St.write "")) =
        Show (St.error "A data inicial não pode ser posterior à data final").
Proof.
  intros Hsel Hrows.
  destruct (configurar_filtros_reaches ui dados_variacao Hsel Hrows)
    as [df [lo [hi [Hdf [Hlo [Hhi [Hmin Hmax]]]]]]].
  exists lo, hi. split; [exact Hmin|]. split; [exact Hmax|].
  intros a b Ha Hb Hab.
  exact (configurar_filtros_date_error_at ui dados_variacao Hdf Hlo Hhi Ha Hb Hab).
Qed.

(** The first date on 1 March and the second on 1 February. *)
Lemma configurar_filtros_date_error_witness :
  snd (configurar_filtros Ex.datas_invertidas Ex.variacoes) = Ok empty_frame /\
  last (fst (configurar_filtros Ex.datas_invertidas Ex.variacoes)) (Show (St.write "")) =
    Show (St.error "A data inicial não pode ser posterior à data final").
Proof.
  destruct (@configurar_filtros_date_error Ex.datas_invertidas Ex.variacoes)
    as [lo [hi [Hlo [Hhi H]]]].
  - intros c [].
  - discriminate.
  - injection Hlo as <-. injection Hhi as <-.
    exact (H (mkTs 2024 3 1) (mkTs 2024 2 1) eq_refl eq_refl eq_refl).
Defined.

End Filters.

(* ===================================================================== *)
(** ** Resampling by month and percentage change (page 2)                 *)
(* ===================================================================== *)

Section Monthly.

Import Page2.

Lemma filter_map_swap {A B} (p : B -> bool) (f : A -> B) (l : list A) :
  filter p (map f l) = map f (filter (fun x => p (f x)) l).
Proof.
  induction l as [|x l IH]; simpl; [reflexivity|].
  destruct (p (f x)); simpl; now rewrite IH.
Qed.

(** The value the resampling keeps for a month is the close of that month
    as the specification words it. *)
Lemma last_valid_month_close (obs : list (Timestamp * list float)) (j : nat) (k : Z) :
  Spec.month_close obs j k (last_valid j (filter (in_month k) (sort_index obs))).
Proof.
  unfold last_valid, dropna.
  set (G := filter (in_month k) (sort_index obs)).
  rewrite (filter_map_swap notna (fun r => cell j (snd r)) G).
  set (G' := filter (fun r => notna (cell j (snd r))) G).
  assert (HG : forall r, In r obs -> month_key (fst r) = k -> In r G).
  { intros r Hr Hk. apply filter_In. split; [now apply sort_index_in|].
    unfold in_month. now apply Z.eqb_eq. }
  assert (HsG' : StronglySorted row_le G').
  { apply filter_sorted, filter_sorted, sort_index_sorted. }
  assert (Hcase : G' = [] \/ exists G'' z, G' = (G'' ++ [z])%list).
  { destruct G' as [|g G0] eqn:E; [now left|]. right.
    destruct (@exists_last _ (g :: G0)) as [G'' [z Hz]]; [discriminate|].
    now exists G'', z. }
  destruct Hcase as [Hnil | [G'' [z Hz]]].
  - (* no row of the month has a value in the column *)
    left. rewrite Hnil. split; [reflexivity|].
    intros r Hr Hk. apply notna_false_eq.
    destruct (notna (cell j (snd r))) eqn:Hn; [|reflexivity].
    assert (Hin : In r G') by (apply filter_In; split; [now apply HG | exact Hn]).
    rewrite Hnil in Hin. contradiction.
  - (* the last row of the month that has one *)
    right. rewrite Hz, map_app. simpl. rewrite last_last.
    assert (Hzin : In z G') by (rewrite Hz; apply in_or_app; right; now left).
    apply filter_In in Hzin. destruct Hzin as [HzG Hzn].
    apply filter_In in HzG. destruct HzG as [HzS Hzk].
    split; [exact Hzn|]. exists z. repeat split.
    + now apply sort_index_in.
    + unfold in_month in Hzk. now apply Z.eqb_eq.
    + intros r' Hr' Hk' Hlt. apply notna_false_eq.
      destruct (notna (cell j (snd r'))) eqn:Hn; [|reflexivity]. exfalso.
      assert (Hin : In r' G') by (apply filter_In; split; [now apply HG | exact Hn]).
      rewrite Hz in Hin, HsG'. apply in_app_or in Hin. destruct Hin as [Hin|[<-|[]]].
      * eapply ts_ltb_not_leb; [exact Hlt|]. exact (@sorted_last G'' z HsG' r' Hin).
      * eapply ts_ltb_not_leb; [exact Hlt|]. apply ts_leb_refl.
Qed.

Lemma nth_map_seq (h : nat -> float) (n j : nat) :
  (j < n)%nat -> cell j (map h (seq 0 n)) = h j.
Proof.
  intros Hj. unfold cell.
  rewrite (nth_indep _ nan (h 0%nat)) by (now rewrite length_map, length_seq).
  rewrite map_nth, seq_nth by exact Hj. reflexivity.
Qed.

Lemma Forall2_map_r {A B} (P : A -> B -> Prop) (g : A -> B) (l : list A) :
  (forall x, In x l -> P x (g x)) -> Forall2 P l (map g l).
Proof.
  induction l as [|x l IH]; simpl; intros H; constructor.
  - apply H. now left.
  - apply IH. intros y Hy. apply H. now right.
Qed.

(** One row for every month from the first to the last, labelled by the
    end of the month, with the close of the month in every column. *)
Lemma resample_ME_last_months (d : DataFrame Timestamp) :
  columns (resample_ME_last d) = columns d /\
  Forall2 (fun k r =>
             fst r = month_end k /\
             List.length (snd r) = List.length (columns d) /\
             forall j, (j < List.length (columns d))%nat ->
               Spec.month_close (rows d) j k (cell j (snd r)))
    (Spec.months d) (rows (resample_ME_last d)).
Proof.
  unfold resample_ME_last, Spec.months.
  destruct (ts_min (index d)) as [lo|]; [|split; [reflexivity | constructor]].
  destruct (ts_max (index d)) as [hi|]; [|split; [reflexivity | constructor]].
  split; [reflexivity|]. simpl. apply Forall2_map_r. intros k _. simpl.
  split; [reflexivity|]. split; [now rewrite length_map, length_seq|].
  intros j Hj. rewrite nth_map_seq by exact Hj. apply last_valid_month_close.
Qed.

Lemma resample_ME_last_rectangular (d : DataFrame Timestamp) :
  rectangular (resample_ME_last d).
Proof.
  destruct (resample_ME_last_months d) as [Hc Hr]. unfold rectangular. rewrite Hc.
  apply Forall_forall. intros r Hin.
  clear Hc. induction Hr as [|k r0 ks rs [_ [Hlen _]] _ IH]; [contradiction|].
  destruct Hin as [<-|Hin]; [exact Hlen | now apply IH].
Qed.

Lemma resample_ME_last_index (d : DataFrame Timestamp) :
  index (resample_ME_last d) = map month_end (Spec.months d).
Proof.
  destruct (resample_ME_last_months d) as [_ Hr]. unfold index.
  induction Hr as [|k r ks rs [Hk _] _ IH]; simpl; [reflexivity | now rewrite Hk, IH].
Qed.

(** *** Percentage change *)

Lemma shift_variations (rs : list (Timestamp * list float)) :
  forall p,
    zip_with (fun r q => (fst r, zip_with (fun x y => (x / y - 1)%float) (snd r) (snd q)))
      rs (shift_rows p rs)
    = Spec.variations (Some p) rs.
Proof.
  induction rs as [|r rs IH]; intros p; simpl; [reflexivity | now rewrite IH].
Qed.

Lemma change_from_nan {A} (cols : list A) (r : list float) :
  List.length r = List.length cols ->
  zip_with (fun x y => (x / y - 1)%float) r (map (fun _ => nan) cols)
  = map (fun _ => nan) r.
Proof.
  revert cols. induction r as [|x r IH]; intros [|c cols]; simpl; intros H;
    try discriminate; [reflexivity|].
  rewrite (@is_nan_eq _ (div_nan_sub_is_nan x)), IH by congruence. reflexivity.
Qed.

(** On a frame with one cell per column in every row, the change is that
    of the specification: the first row missing, every other row relative
    to the row before it. *)
Lemma pct_change_variations (d : DataFrame Timestamp) :
  rectangular d -> pct_change d = mkDF (columns d) (Spec.variations None (rows d)).
Proof.
  intros Hrect. unfold pct_change, shift1. simpl. f_equal.
  rewrite shift_variations. unfold rectangular in Hrect.
  destruct (rows d) as [|r rs]; [reflexivity|]. simpl. f_equal. f_equal.
  inversion Hrect; subst. now apply change_from_nan.
Qed.

Lemma variations_index (rs : list (Timestamp * list float)) :
  forall prev, map fst (Spec.variations prev rs) = map fst rs.
Proof.
  induction rs as [|r rs IH]; intros prev; simpl; [reflexivity | now rewrite IH].
Qed.

(** *** The index of a table that already holds timestamps *)

Lemma to_datetime_stamps (parse : string -> option Timestamp) (ts : list Timestamp) :
  to_datetime parse (map Stamp ts) = Ok ts.
Proof. induction ts as [|t ts IH]; simpl; [reflexivity | now rewrite IH]. Qed.

Lemma stamped_index (d : DataFrame Timestamp) : index (stamped d) = map Stamp (index d).
Proof. unfold index, stamped. simpl. now rewrite !map_map. Qed.

Lemma set_index_stamped (d : DataFrame Timestamp) :
  set_index (stamped d) (map Stamp (index d)) = stamped d /\
  set_index (set_index (stamped d) (map Stamp (index d))) (index d) = d.
Proof.
  destruct d as [cols rs]. unfold set_index, stamped, index. simpl.
  split; f_equal.
  - induction rs as [|[t r] rs IH]; simpl; [reflexivity | now rewrite IH].
  - induction rs as [|[t r] rs IH]; simpl; [reflexivity | now f_equal].
Qed.

(** On a table whose index holds timestamps the function returns, leaves
    its argument as it was, and gives the change of the monthly closes. *)
Lemma calcular_variacao_mensal_stamped (parse : string -> option Timestamp)
    (d : DataFrame Timestamp) :
  calcular_variacao_mensal parse (stamped d) =
    Ok (stamped d, mkDF (columns d) (Spec.variations None (rows (resample_ME_last d)))).
Proof.
  unfold calcular_variacao_mensal.
  rewrite stamped_index, to_datetime_stamps. simpl Py.bind.
  destruct (set_index_stamped d) as [H1 H2]. rewrite H2, H1.
  rewrite pct_change_variations by apply resample_ME_last_rectangular.
  destruct (resample_ME_last_months d) as [-> _]. reflexivity.
Qed.

End Monthly.

(* ===================================================================== *)
(** ** The monthly variation and what the filters return (page 2)         *)
(* ===================================================================== *)

Section MonthlyClaims.

Import Page2.

(** C2.  On a daily table whose index holds timestamps the function
    returns, whatever the parser of date texts.  There is a table
    [df_mensal] with one row for every calendar month from the month of
    the earliest day to the month of the latest, labelled by the end of the
    month, and with one cell per column: the value of the latest day of the
    month that has an observation in the column, missing when no day of the
    month has one.  The table returned has the same columns and labels;
    its first row is missing, and every later row holds, column by column,
    the value of its month divided by the value of the month before, less
    one.  On the table of the examples, where January ends at 100 and
    February at 110, the row of January is missing and the cell of
    February is 110 / 100 - 1, which is above zero and 10.00% at two
    decimals. *)
Theorem calcular_variacao_mensal_monthly (parse : string -> option Timestamp)
    (dados : DataFrame Timestamp) :
  (exists df_mensal,
     calcular_variacao_mensal parse (stamped dados) =
       Ok (stamped dados, mkDF (columns dados) (Spec.variations None (rows df_mensal))) /\
     Forall2 (fun k r =>
                fst r = month_end k /\
                List.length (snd r) = List.length (columns dados) /\
                forall j, (j < List.length (columns dados))%nat ->
                  Spec.month_close (rows dados) j k (cell j (snd r)))
       (Spec.months dados) (rows df_mensal)) /\
  (exists v,
     calcular_variacao_mensal parse (stamped Ex.diario) =
       Ok (stamped Ex.diario,
           mkDF ["PETR4.SA"] [(mkTs 2024 1 31, [nan]); (mkTs 2024 2 29, [v])]) /\
     v = (110 / 100 - 1)%float /\
     (0 <? v)%float = true /\
     format_pct2 v = "10.00%").
Proof.
  split.
  - exists (resample_ME_last dados). split.
    + apply calcular_variacao_mensal_stamped.
    + apply resample_ME_last_months.
  - exists (110 / 100 - 1)%float. rewrite calcular_variacao_mensal_stamped.
    repeat split; vm_compute; reflexivity.
Qed.

(** *** The rows the filters return *)

Lemma getitem_list_rows {L} (d d' : DataFrame L) (cs : list string) :
  getitem_list d cs = Ok d' ->
  exists js, rows d' = map (fun r => (fst r, map (fun j => cell j (snd r)) js)) (rows d).
Proof.
  unfold getitem_list. destruct (get_locs cs (columns d)) as [js|e]; [|discriminate].
  simpl. intros H. injection H as <-. now exists js.
Qed.

Lemma direction_cell_value (ui : widgets) (y : float) :
  notna (Spec.direction_cell ui y) = true -> notna y = true.
Proof.
  unfold Spec.direction_cell.
  destruct (alta_filtro ui || filtro_filtro ui || estavel_filtro ui); [|tauto].
  destruct (Spec.retained ui y); [tauto|]. rewrite notna_nan. discriminate.
Qed.

Lemma has_value_direction (ui : widgets) (r : list float) :
  has_value (map (Spec.direction_cell ui) r) = true -> has_value r = true.
Proof.
  unfold has_value. rewrite !existsb_exists. intros [x [Hx Hn]].
  apply in_map_iff in Hx. destruct Hx as [y [<- Hy]].
  exists y. split; [exact Hy | now apply direction_cell_value in Hn].
Qed.

Lemma has_value_selected (js : list nat) (r : list float) :
  has_value (map (fun j => cell j r) js) = true -> has_value r = true.
Proof.
  unfold has_value. rewrite !existsb_exists. intros [x [Hx Hn]].
  apply in_map_iff in Hx. destruct Hx as [j [<- Hj]]. unfold cell in *.
  destruct (nth_in_or_default j r nan) as [Hin|Hd].
  - now exists (nth j r nan).
  - rewrite Hd, notna_nan in Hn. discriminate.
Qed.

(** Every row returned has a value, and comes from a row of the table
    given, of the same label, that has one. *)
Lemma configurar_filtros_rows (ui : widgets) (d f : DataFrame Timestamp) :
  snd (configurar_filtros ui d) = Ok f ->
  forall r, In r (rows f) ->
    has_value (snd r) = true /\
    exists r0, In r0 (rows d) /\ fst r0 = fst r /\ has_value (snd r0) = true.
Proof.
  rewrite configurar_filtros_snd.
  destruct (getitem_list d (acoes_selecionadas ui d)) as [df|e] eqn:Hdf; [|discriminate].
  simpl Py.bind.
  destruct (index_min df) as [lo|e]; [|discriminate]. simpl Py.bind.
  destruct (index_max df) as [hi|e]; [|discriminate]. simpl Py.bind.
  assert (Hempty : Ok (@empty_frame Timestamp) = Ok f ->
            forall r, In r (rows f) ->
              has_value (snd r) = true /\
              exists r0, In r0 (rows d) /\ fst r0 = fst r /\ has_value (snd r0) = true).
  { intros H. injection H as <-. intros r []. }
  destruct (St.value_of (page2_data_inicial ui) (Some (um_ano_antes lo hi))) as [a|];
    [|destruct (St.value_of (page2_data_final ui) (Some hi)); exact Hempty].
  destruct (St.value_of (page2_data_final ui) (Some hi)) as [b|]; [|exact Hempty].
  destruct (ts_ltb b a); [exact Hempty|]. clear Hempty.
  rewrite aplicar_filtros_direction
    by (apply loc_slice_rectangular; exact (getitem_list_rectangular _ _ Hdf)).
  intros H. injection H as <-. simpl. intros r Hr.
  apply filter_In in Hr. destruct Hr as [Hr Hv]. split; [exact Hv|].
  apply in_map_iff in Hr. destruct Hr as [r1 [<- Hr1]].
  apply filter_In in Hr1. destruct Hr1 as [Hr1 _].
  destruct (getitem_list_rows _ _ Hdf) as [js Hjs]. rewrite Hjs in Hr1.
  apply in_map_iff in Hr1. destruct Hr1 as [r0 [<- Hr0]].
  exists r0. repeat split; [exact Hr0|]. simpl in Hv.
  now apply has_value_direction, has_value_selected in Hv.
Qed.

(** *** The labels of the monthly table *)

Lemma month_end_injective (k1 k2 : Z) : month_end k1 = month_end k2 -> k1 = k2.
Proof.
  unfold month_end. intros H. injection H as Hy Hm _.
  rewrite (Z.div_mod k1 12), (Z.div_mod k2 12) by lia. lia.
Qed.

Lemma month_range_nodup (lo hi : Z) : NoDup (month_range lo hi).
Proof.
  unfold month_range. generalize (Z.to_nat (hi - lo + 1)) as n. intros n.
  generalize 0%nat as s. induction n as [|n IH]; intros s; simpl; constructor.
  - intros Hin. apply in_map_iff in Hin. destruct Hin as [i [Hi Hs]].
    apply in_seq in Hs. lia.
  - apply IH.
Qed.

Lemma month_labels_nodup (lo hi : Z) : NoDup (map month_end (month_range lo hi)).
Proof.
  induction (month_range_nodup lo hi) as [|k ks Hk _ IH]; simpl; constructor.
  - intros Hin. apply in_map_iff in Hin. destruct Hin as [k' [He Hk']].
    apply month_end_injective in He. now subst.
  - exact IH.
Qed.

Lemma months_labels_nodup (d : DataFrame Timestamp) : NoDup (map month_end (Spec.months d)).
Proof.
  unfold Spec.months. destruct (ts_min (index d)); [|constructor].
  destruct (ts_max (index d)); [apply month_labels_nodup | constructor].
Qed.

Lemma has_value_missing {A} (l : list A) : has_value (map (fun _ => nan) l) = false.
Proof. induction l as [|x l IH]; simpl; [reflexivity | exact IH]. Qed.

(** C10.  Whenever the filters return a table, every row of it has some
    value, whichever direction filters are checked and also when none is.
    When the table given is the monthly variation of a daily table, its
    first row has no value, and the label of that row is the label of no
    row returned. *)
Theorem configurar_filtros_no_missing_row (ui : widgets)
    (dados_variacao f : DataFrame Timestamp) :
  snd (configurar_filtros ui dados_variacao) = Ok f ->
  Forall (fun r => has_value (snd r) = true) (rows f) /\
  forall parse dados t0 r0 rest,
    calcular_variacao_mensal parse (stamped dados) = Ok (stamped dados, dados_variacao) ->
    rows dados_variacao = (t0, r0) :: rest ->
    has_value r0 = false /\ ~ In t0 (index f).
Proof.
  intros Hf. split.
  - apply Forall_forall. intros r Hr.
    now destruct (configurar_filtros_rows ui dados_variacao Hf r Hr).
  - intros parse dados t0 r0 rest Hvar Hrows.
    rewrite calcular_variacao_mensal_stamped in Hvar.
    injection Hvar as Hvar. subst dados_variacao. simpl in Hrows.
    assert (Hnodup : NoDup (map fst ((t0, r0) :: rest))).
    { rewrite <- Hrows, variations_index.
      fold (index (resample_ME_last dados)). rewrite resample_ME_last_index.
      apply months_labels_nodup. }
    assert (Hr0 : has_value r0 = false).
    { destruct (rows (resample_ME_last dados)) as [|m ms]; [discriminate|].
      simpl in Hrows. injection Hrows as _ Hr _. subst r0.
      apply has_value_missing. }
    split; [exact Hr0|].
    intros Hin. unfold index in Hin. apply in_map_iff in Hin.
    destruct Hin as [r [Hlabel Hr]].
    destruct (configurar_filtros_rows ui _ Hf r Hr) as [_ [r1 [Hr1 [Hl1 Hv1]]]].
    simpl in Hr1. rewrite Hrows in Hr1. destruct Hr1 as [<-|Hr1].
    + simpl in Hv1. congruence.
    + simpl in Hnodup. inversion Hnodup as [|? ? Hnot _]; subst.
      apply Hnot. apply in_map_iff. exists r1. split; [congruence | exact Hr1].
Qed.

(** The monthly variation of the daily table of the examples, shown with
    no direction filter checked: the row of February is returned, the row
    of January, which has no value, is not. *)
Lemma configurar_filtros_no_missing_row_witness :
  Forall (fun r => has_value (snd r) = true)
    (rows (mkDF ["PETR4.SA"] [(mkTs 2024 2 29, [(110 / 100 - 1)%float])])) /\
  has_value [nan] = false /\
  ~ In (mkTs 2024 1 31)
      (index (mkDF ["PETR4.SA"] [(mkTs 2024 2 29, [(110 / 100 - 1)%float])])).
Proof.
  destruct (@configurar_filtros_no_missing_row Ex.intocado
              (mkDF ["PETR4.SA"]
                 [(mkTs 2024 1 31, [nan]); (mkTs 2024 2 29, [(110 / 100 - 1)%float])])
              (mkDF ["PETR4.SA"] [(mkTs 2024 2 29, [(110 / 100 - 1)%float])]))
    as [Hrows Hfirst].
  - vm_compute. reflexivity.
  - split; [exact Hrows|].
    apply (Hfirst Ex.parse_iso Ex.diario (mkTs 2024 1 31) [nan]
             [(mkTs 2024 2 29, [(110 / 100 - 1)%float])]).
    + vm_compute. reflexivity.
    + reflexivity.
Defined.

(** The monthly view of the daily table of the examples, no direction
    filter checked: the row of January is not shown. *)
Lemma configurar_filtros_first_month_example :
  (r <- calcular_variacao_mensal Ex.parse_iso (stamped Ex.diario) ;;
   snd (configurar_filtros Ex.intocado (snd r)))
  = Ok (mkDF ["PETR4.SA"] [(mkTs 2024 2 29, [(110 / 100 - 1)%float])]).
Proof. vm_compute. reflexivity. Qed.

End MonthlyClaims.

(* ===================================================================== *)
(** ** The argument of calcular_variacao_mensal (page 2)                  *)
(* ===================================================================== *)

Section Argument.

Import Page2.

Variable parse : string -> option Timestamp.

Lemma to_datetime_each (ls : list label) (ts : list Timestamp) :
  to_datetime parse ls = Ok ts ->
  Forall2 (fun l t => to_timestamp parse l = Ok t) ls ts.
Proof.
  revert ts. induction ls as [|l ls IH]; simpl; intros ts H.
  - injection H as <-. constructor.
  - destruct (to_timestamp parse l) as [t|e] eqn:Ht; [|discriminate]. simpl in H.
    destruct (to_datetime parse ls) as [ts'|e]; [|discriminate]. simpl in H.
    injection H as <-. constructor; [exact Ht | now apply IH].
Qed.

Lemma to_datetime_all_stamps (ls : list label) :
  (forall l, In l ls -> exists t, l = Stamp t) ->
  exists ts, to_datetime parse ls = Ok ts /\ map Stamp ts = ls.
Proof.
  induction ls as [|l ls IH]; intros H.
  - now exists [].
  - destruct (H l (or_introl eq_refl)) as [t ->].
    destruct IH as [ts [Hts Hmap]]; [intros x Hx; apply H; now right|].
    exists (t :: ts). simpl. rewrite Hts, Hmap. now split.
Qed.

Lemma set_index_same {L} (d : DataFrame L) : set_index d (index d) = d.
Proof.
  destruct d as [cols rs]. unfold set_index, index. simpl. f_equal.
  induction rs as [|[t r] rs IH]; simpl; [reflexivity | now rewrite IH].
Qed.

Lemma set_index_parts {L M} (d : DataFrame L) (idx : list M) :
  List.length idx = List.length (rows d) ->
  columns (set_index d idx) = columns d /\
  values (set_index d idx) = values d /\
  index (set_index d idx) = idx.
Proof.
  destruct d as [cols rs]. unfold set_index, values, index. simpl. intros Hlen.
  split; [reflexivity|].
  revert idx Hlen. induction rs as [|r rs IH]; intros [|t idx] Hlen;
    try discriminate; simpl; [now split|].
  destruct (IH idx) as [Hv Hi]; [simpl in Hlen; congruence|].
  now rewrite Hv, Hi.
Qed.

(** The function assigns to the index of its argument the timestamps its
    labels convert to.  When the index of the argument already holds
    timestamps the function returns and the argument is left as it was;
    and whenever the function returns, the columns and the values of the
    argument are as they were, and each label of its index has become the
    timestamp it converts to. *)
Lemma calcular_variacao_mensal_argument (dados : DataFrame label) :
  ((forall l, In l (index dados) -> exists t, l = Stamp t) ->
   exists variacao_mensal,
     calcular_variacao_mensal parse dados = Ok (dados, variacao_mensal)) /\
  (forall dados' variacao_mensal,
     calcular_variacao_mensal parse dados = Ok (dados', variacao_mensal) ->
     columns dados' = columns dados /\
     values dados' = values dados /\
     Forall2 (fun l l' => exists t, to_timestamp parse l = Ok t /\ l' = Stamp t)
       (index dados) (index dados')).
Proof.
  split.
  - intros Hstamps. destruct (to_datetime_all_stamps _ Hstamps) as [ts [Hts Hmap]].
    unfold calcular_variacao_mensal. rewrite Hts. simpl Py.bind.
    rewrite Hmap, set_index_same. eexists. reflexivity.
  - intros dados' v. unfold calcular_variacao_mensal.
    destruct (to_datetime parse (index dados)) as [ts|e] eqn:Hts; [|discriminate].
    simpl Py.bind. intros H. injection H as <- _.
    apply to_datetime_each in Hts.
    assert (Hlen : List.length (map Stamp ts) = List.length (rows dados)).
    { rewrite length_map. apply Forall2_length in Hts.
      unfold index in Hts. now rewrite length_map in Hts. }
    destruct (set_index_parts dados (map Stamp ts) Hlen) as [Hc [Hv Hi]].
    split; [exact Hc|]. split; [exact Hv|]. rewrite Hi.
    clear -Hts. induction Hts as [|l t ls ts Hl _ IH]; simpl; constructor.
    + now exists t.
    + exact IH.
Qed.

End Argument.

(* ===================================================================== *)
(** ** The tables a function is given                                     *)
(* ===================================================================== *)

Section Stores.

Import Objects.

Local Unset Implicit Arguments.

(** *** The store *)

Lemma lookup_app_old {L} {s : store L} (t : store L) {r : ref} {o : object L} :
  lookup s r = Some o -> lookup (s ++ t)%list r = Some o.
Proof.
  unfold lookup. intros H. rewrite nth_error_app1; [exact H|].
  apply nth_error_Some. congruence.
Qed.

Lemma lookup_new {L} (s : store L) (o : object L) :
  lookup (s ++ [o])%list (List.length s) = Some o.
Proof.
  unfold lookup. rewrite nth_error_app2 by lia. now rewrite Nat.sub_diag.
Qed.

Lemma lookup_fresh {L} (s : store L) : lookup s (List.length s) = None.
Proof. unfold lookup. apply nth_error_None. lia. Qed.

Lemma lookup_replace_same {L} {s : store L} {r : ref} (o : object L) {o0 : object L} :
  lookup s r = Some o0 -> lookup (replace r o s) r = Some o.
Proof.
  unfold lookup. revert r. induction s as [|x s IH]; intros [|r] H; simpl in *;
    try discriminate; [reflexivity | now apply IH].
Qed.

Lemma lookup_replace_other {L} (s : store L) {r r' : ref} (o : object L) :
  r <> r' -> lookup (replace r o s) r' = lookup s r'.
Proof.
  unfold lookup. revert r r'. induction s as [|x s IH]; intros [|r] [|r'] H; simpl;
    try reflexivity; [congruence | apply IH; congruence].
Qed.

Lemma replace_same {L} {s : store L} {r : ref} {o : object L} :
  lookup s r = Some o -> replace r o s = s.
Proof.
  unfold lookup. revert r. induction s as [|x s IH]; intros [|r] H; simpl in *;
    try discriminate.
  - now injection H as ->.
  - now rewrite IH.
Qed.

Lemma preserves_refl {L} (s : store L) : preserves s s.
Proof. intros r o H. exact H. Qed.

Lemma preserves_trans {L} {s1 s2 s3 : store L} :
  preserves s1 s2 -> preserves s2 s3 -> preserves s1 s3.
Proof. intros H12 H23 r o H. apply H23, H12, H. Qed.

Lemma preserves_new {L} (s : store L) (o : object L) : preserves s (s ++ [o])%list.
Proof. intros r x H. now apply lookup_app_old. Qed.

(** A place that holds nothing after a run held nothing before it. *)
Lemma fresh_back {L} {s s' : store L} {r : ref} :
  preserves s s' -> lookup s' r = None -> lookup s r = None.
Proof.
  intros Hp Hnone. destruct (lookup s r) as [o|] eqn:E; [|reflexivity].
  apply Hp in E. congruence.
Qed.

(** *** One step of a run *)

Lemma pbind_step {L A B} {m : prog L A} (k : A -> prog L B) {s s1 : store L} {a : A} :
  m s = Some (ret a, s1) -> pbind m k s = k a s1.
Proof.
  intros H. unfold pbind. rewrite H. simpl.
  destruct (k a s1) as [[[evs r] s2]|]; reflexivity.
Qed.

Lemma frame_run {L} {s : store L} {r : ref} {d : DataFrame L} :
  lookup s r = Some (Frame d) -> frame r s = Some (ret d, s).
Proof. intros H. unfold frame. now rewrite H. Qed.

Lemma bools_run {L} {s : store L} {r : ref} {m : Mask} :
  lookup s r = Some (Bools m) -> bools r s = Some (ret m, s).
Proof. intros H. unfold bools. now rewrite H. Qed.

(** A method that reads a table and returns a new object. *)
Lemma alloc_run {L} (f : DataFrame L -> object L) {s : store L} {r : ref}
    {d : DataFrame L} :
  lookup s r = Some (Frame d) ->
  pbind (frame r) (fun x => new (f x)) s = Some (ret (List.length s), (s ++ [f d])%list).
Proof. intros H. now rewrite (pbind_step _ (frame_run H)). Qed.

Lemma alloc_table {L} (f : DataFrame L -> DataFrame L) {s : store L} {r : ref}
    {d : DataFrame L} :
  lookup s r = Some (Frame d) ->
  exists r' s',
    pbind (frame r) (fun x => new (Frame (f x))) s = Some (ret r', s') /\
    preserves s s' /\ new_table s s' r' (f d).
Proof.
  intros H. exists (List.length s), (s ++ [Frame (f d)])%list.
  split; [exact (alloc_run (fun x => Frame (f x)) H)|].
  split; [apply preserves_new|]. split; [apply lookup_fresh | apply lookup_new].
Qed.

Lemma columns_of_run {L} {s : store L} {r : ref} {d : DataFrame L} :
  lookup s r = Some (Frame d) -> columns_of r s = Some (ret (columns d), s).
Proof. intros H. unfold columns_of. now rewrite (pbind_step _ (frame_run H)). Qed.

(** *** Runs and scripts *)

Lemma sim_pret {L A B} (R : store L -> A -> B -> Prop) (a : A) (b : B) (s : store L) :
  R s a b -> sim R (pret a) (ret b) s.
Proof.
  intros H. exists (ret a), s. split; [reflexivity|]. split; [apply preserves_refl|].
  split; [reflexivity|]. simpl. now exists a.
Qed.

Lemma sim_run {L A} (m : script A) (s : store L) :
  sim (fun _ a b => a = b) (run m) m s.
Proof.
  exists m, s. split; [reflexivity|]. split; [apply preserves_refl|].
  split; [reflexivity|]. destruct (snd m) as [a|e]; [now exists a | reflexivity].
Qed.

Lemma sim_bind {L A B A' B'} (R : store L -> A -> B -> Prop)
    {R' : store L -> A' -> B' -> Prop} {m : prog L A} {p : script B}
    {k : A -> prog L A'} {kp : B -> script B'} {s : store L} :
  sim R m p s ->
  (forall s1 a b, preserves s s1 -> R s1 a b -> sim R' (k a) (kp b) s1) ->
  sim R' (pbind m k) (sbind p kp) s.
Proof.
  intros [out [s1 [Hm [Hp [Hev Hres]]]]] Hk.
  unfold sim, pbind, sbind. rewrite Hm.
  destruct (snd p) as [b|e].
  - destruct Hres as [a [Ha HR]]. rewrite Ha.
    destruct (Hk s1 a b Hp HR) as [out2 [s2 [Hm2 [Hp2 [Hev2 Hres2]]]]].
    rewrite Hm2. eexists. eexists. split; [reflexivity|].
    split; [exact (preserves_trans Hp Hp2)|]. simpl.
    split; [now rewrite Hev, Hev2 | exact Hres2].
  - rewrite Hres. eexists. eexists. split; [reflexivity|].
    split; [exact Hp|]. simpl. now split.
Qed.

(** A step of the run that the script does not have: it writes nothing
    on the screen and ends in a value. *)
Lemma sim_left {L A A' B'} (Q : store L -> A -> Prop) {R' : store L -> A' -> B' -> Prop}
    {m : prog L A} {k : A -> prog L A'} {p : script B'} {s : store L} :
  (exists a s1, m s = Some (ret a, s1) /\ preserves s s1 /\ Q s1 a) ->
  (forall s1 a, preserves s s1 -> Q s1 a -> sim R' (k a) p s1) ->
  sim R' (pbind m k) p s.
Proof.
  intros [a [s1 [Hm [Hp HQ]]]] Hk.
  destruct (Hk s1 a Hp HQ) as [out2 [s2 [Hm2 [Hp2 [Hev2 Hres2]]]]].
  exists out2, s2. split; [now rewrite (pbind_step _ Hm)|].
  split; [exact (preserves_trans Hp Hp2)|]. now split.
Qed.

Lemma lift_bind {A B} (r : result A) (f : A -> result B) :
  lift (Py.bind r f) = sbind (lift r) (fun x => lift (f x)).
Proof. destruct r as [a|e]; [|reflexivity]. unfold sbind, lift. simpl. reflexivity. Qed.

Lemma sim_frame {L A B} {R : store L -> A -> B -> Prop} {r : ref} {d : DataFrame L}
    (k : DataFrame L -> prog L A) {p : script B} {s : store L} :
  lookup s r = Some (Frame d) -> sim R (k d) p s -> sim R (pbind (frame r) k) p s.
Proof. intros H. unfold sim. now rewrite (pbind_step _ (frame_run H)). Qed.

Lemma sim_columns_of {L A B} {R : store L -> A -> B -> Prop} {r : ref} {d : DataFrame L}
    (k : list string -> prog L A) {p : script B} {s : store L} :
  lookup s r = Some (Frame d) ->
  sim R (k (columns d)) p s -> sim R (pbind (columns_of r) k) p s.
Proof. intros H. unfold sim. now rewrite (pbind_step _ (columns_of_run H)). Qed.

(** *** The methods of pandas *)

Lemma getitem_list_sim {L} {s : store L} {r : ref} {d : DataFrame L} (cs : list string) :
  lookup s r = Some (Frame d) ->
  sim (fun s' r' d' => new_table s s' r' d')
    (getitem_list r cs) (lift (Pd.getitem_list d cs)) s.
Proof.
  intros H. unfold getitem_list. apply (sim_frame _ H).
  unfold sim, pbind, run, new, lift. simpl.
  destruct (Pd.getitem_list d cs) as [y|e]; simpl.
  - eexists. eexists. split; [reflexivity|]. split; [apply preserves_new|].
    split; [reflexivity|]. eexists. split; [reflexivity|].
    split; [apply lookup_fresh | apply lookup_new].
  - eexists. eexists. split; [reflexivity|]. split; [apply preserves_refl|].
    now split.
Qed.

Lemma index_min_sim {s : store Timestamp} {r : ref} {d : DataFrame Timestamp} :
  lookup s r = Some (Frame d) ->
  sim (fun _ a b => a = b) (index_min r) (lift (Pd.index_min d)) s.
Proof. intros H. unfold index_min. apply (sim_frame _ H). apply sim_run. Qed.

Lemma index_max_sim {s : store Timestamp} {r : ref} {d : DataFrame Timestamp} :
  lookup s r = Some (Frame d) ->
  sim (fun _ a b => a = b) (index_max r) (lift (Pd.index_max d)) s.
Proof. intros H. unfold index_max. apply (sim_frame _ H). apply sim_run. Qed.

(** *** configurar_sidebar *)

Lemma configurar_sidebar_sim (ui : Page1.widgets) (s : store Timestamp) (dados : ref)
    (d : DataFrame Timestamp) :
  lookup s dados = Some (Frame d) ->
  sim (fun s' x y =>
         snd (fst x) = snd (fst y) /\ snd x = snd y /\
         new_table s s' (fst (fst x)) (fst (fst y)))
    (configurar_sidebar ui dados) (Page1.configurar_sidebar ui d) s.
Proof.
  intros Hd. unfold configurar_sidebar, Page1.configurar_sidebar.
  apply (sim_bind _ (sim_run _ _)). intros s1 _ _ Hs1 _.
  apply (sim_columns_of _ (Hs1 _ _ Hd)).
  apply (sim_bind _ (sim_run _ _)). intros s2 _ _ Hs2 _.
  pose proof (preserves_trans Hs1 Hs2) as H2.
  apply (sim_bind (fun s' x y => snd x = snd y /\ lookup s' (fst x) = Some (Frame (fst y)))).
  { destruct (Page1.page1_acoes ui) as [|acao outras].
    - apply sim_pret. split; [reflexivity | exact (H2 _ _ Hd)].
    - rewrite lift_bind.
      apply (sim_bind _ (getitem_list_sim _ (H2 _ _ Hd))).
      intros s3 r3 d3 Hs3 [_ Hr3]. destruct outras as [|outra outras].
      + apply (sim_left _ (alloc_table (fun x => Pd.rename x acao "Close") Hr3)).
        intros s4 r4 Hs4 [_ Hr4]. apply sim_pret. now split.
      + apply sim_pret. now split. }
  intros s3 [r3 a3] [d3 b3] Hs3 [Ha Hr3]. simpl in Ha, Hr3. subst b3. simpl fst. simpl snd.
  pose proof (preserves_trans H2 Hs3) as H3.
  apply (sim_bind _ (index_min_sim Hr3)). intros s4 lo ? Hs4 <-.
  apply (sim_bind _ (index_max_sim (Hs4 _ _ Hr3))). intros s5 hi ? Hs5 <-.
  apply (sim_bind _ (sim_run _ _)). intros s6 _ _ Hs6 _.
  apply (sim_bind _ (sim_run _ _)). intros s7 _ _ Hs7 _.
  pose proof (preserves_trans Hs4 (preserves_trans Hs5 (preserves_trans Hs6 Hs7))) as H7.
  apply (sim_left _ (alloc_table (fun x => Pd.loc_slice x _ _) (H7 _ _ Hr3))).
  intros s8 r8 Hs8 [Hnew Hr8]. apply sim_pret. simpl.
  split; [reflexivity|]. split; [reflexivity|]. split; [|exact Hr8].
  apply (fresh_back (preserves_trans H3 H7) Hnew).
Qed.

(** *** calcular_performance *)

Lemma for_acao_run {L} (s : store L) (r : ref) (cols : list (option string))
    (d : DataFrame L) (lista_acoes : list string) (texto : string) :
  (lookup s r = Some (Frame d) /\ cols = map Some (columns d)) \/
  lookup s r = Some (Relabelled cols d) ->
  for_acao r lista_acoes texto s = Some (lift (Page1.for_acao cols d lista_acoes texto), s).
Proof.
  intros H. revert texto. induction lista_acoes as [|acao rest IH]; intros texto.
  - reflexivity.
  - simpl. unfold pbind, getitem_dropna.
    assert (E : match lookup s r with
                | Some (Frame d0) => Some (map Some (columns d0), d0)
                | Some (Relabelled labels d0) => Some (labels, d0)
                | _ => None
                end = Some (cols, d)).
    { destruct H as [[-> ->] | ->]; reflexivity. }
    destruct (lookup s r) as [[d0 | labels d0 | m]|]; try discriminate;
      injection E as -> ->;
      (destruct (get_loc Page1.label_eqb (Some acao) _) as [j|]; simpl;
       [now rewrite IH | reflexivity]).
Qed.

Lemma calcular_performance_run {L} (s : store L) (dados : ref) (d : DataFrame L)
    (lista_acoes : list string) (acao_unica : option string) :
  lookup s dados = Some (Frame d) ->
  exists s',
    calcular_performance dados lista_acoes acao_unica s
      = Some (lift (Page1.calcular_performance d lista_acoes acao_unica), s') /\
    preserves s s'.
Proof.
  intros Hd. unfold calcular_performance, Page1.calcular_performance, Page1.colunas.
  destruct lista_acoes as [|acao [|outra outras]].
  - exists s. split; [reflexivity | apply preserves_refl].
  - exists (s ++ [Relabelled (Page1.rename_close acao_unica (columns d)) d])%list.
    split; [|apply preserves_new].
    unfold rename_close. cbn [List.length Nat.eqb].
    rewrite (pbind_step _ (alloc_run (fun x => Relabelled _ x) Hd)).
    apply for_acao_run. right. apply lookup_new.
  - exists s. split; [|apply preserves_refl].
    cbn [List.length Nat.eqb]. rewrite (pbind_step (s1 := s) (a := dados) _ eq_refl).
    apply for_acao_run. left. now split.
Qed.

(** *** The block of the direction filter *)

Lemma ior_se_run {L} (s0 s : store L) (nome : string) (filtros_variacao : list string)
    (p : float -> bool) (m r : ref) (M : Mask) (d : DataFrame L) :
  preserves s0 s -> lookup s0 m = None ->
  lookup s m = Some (Bools M) -> lookup s r = Some (Frame d) ->
  exists s',
    ior_se nome filtros_variacao p m r s = Some (ret tt, s') /\
    preserves s0 s' /\
    lookup s' m = Some (Bools (if Page2.marcado nome filtros_variacao
                               then mask_or M (Pd.compare_cells p d) else M)) /\
    lookup s' r = Some (Frame d).
Proof.
  intros Hp Hfresh Hm Hr. unfold ior_se.
  destruct (Page2.marcado nome filtros_variacao).
  - set (C := Pd.compare_cells p d). set (s1 := (s ++ [Bools C])%list).
    assert (Hm1 : lookup s1 m = Some (Bools M)) by now apply lookup_app_old.
    assert (Hc1 : lookup s1 (List.length s) = Some (Bools C)) by apply lookup_new.
    assert (Hne : m <> r) by (intros ->; congruence).
    exists (replace m (Bools (mask_or M C)) s1). split; [|split; [|split]].
    + unfold compare_cells.
      rewrite (pbind_step _ (alloc_run (fun x => Bools (Pd.compare_cells p x)) Hr)).
      fold C. fold s1. unfold ior.
      rewrite (pbind_step _ (bools_run Hm1)), (pbind_step _ (bools_run Hc1)).
      unfold assign. now rewrite Hm1.
    + intros r0 o0 H0. rewrite lookup_replace_other by (intros ->; congruence).
      apply lookup_app_old. now apply Hp.
    + exact (lookup_replace_same _ Hm1).
    + rewrite lookup_replace_other by exact Hne. now apply lookup_app_old.
  - exists s. now split.
Qed.

Lemma aplicar_filtros_variacao_run (s : store Timestamp) (filtros_variacao : list string)
    (r : ref) (d : DataFrame Timestamp) :
  lookup s r = Some (Frame d) ->
  exists r' s',
    aplicar_filtros_variacao filtros_variacao r s = Some (ret r', s') /\
    preserves s s' /\
    lookup s' r' = Some (Frame (Page2.aplicar_filtros_variacao filtros_variacao d)).
Proof.
  intros Hr. destruct filtros_variacao as [|f fv].
  - exists r, s. split; [reflexivity|]. split; [apply preserves_refl | exact Hr].
  - unfold aplicar_filtros_variacao, Page2.aplicar_filtros_variacao. cbv iota.
    set (filtros := f :: fv).
    unfold mask_false.
    rewrite (pbind_step _ (alloc_run (fun x => Bools (Pd.mask_false x)) Hr)).
    set (m := List.length s). set (s1 := (s ++ [Bools (Pd.mask_false d)])%list).
    destruct (@ior_se_run _ s s1 "Alta" filtros gt0 m r (Pd.mask_false d) d)
      as [s2 [E2 [P2 [M2 R2]]]];
      [apply preserves_new | apply lookup_fresh | apply lookup_new
      | now apply lookup_app_old |].
    destruct (@ior_se_run _ s s2 "Baixa" filtros lt0 m r _ d P2 (lookup_fresh s) M2 R2)
      as [s3 [E3 [P3 [M3 R3]]]].
    destruct (@ior_se_run _ s s3 "Estável" filtros eq0 m r _ d P3 (lookup_fresh s) M3 R3)
      as [s4 [E4 [P4 [M4 R4]]]].
    rewrite (pbind_step _ E2), (pbind_step _ E3), (pbind_step _ E4).
    unfold where_.
    rewrite (pbind_step _ (frame_run R4)), (pbind_step _ (bools_run M4)).
    eexists. eexists. split; [reflexivity|].
    split; [exact (preserves_trans P4 (preserves_new _ _)) | apply lookup_new].
Qed.

(** *** configurar_filtros *)

Lemma sim_new_table {L} (s0 s : store L) (d : DataFrame L) :
  preserves s0 s ->
  sim (fun s' r d' => new_table s0 s' r d') (new (Frame d)) (ret d) s.
Proof.
  intros Hp. exists (ret (List.length s)), (s ++ [Frame d])%list.
  split; [reflexivity|]. split; [apply preserves_new|]. split; [reflexivity|].
  simpl. eexists. split; [reflexivity|].
  split; [exact (fresh_back Hp (lookup_fresh s)) | apply lookup_new].
Qed.

Lemma sim_alloc_table {L} (f : DataFrame L -> DataFrame L) (s0 s : store L) (r : ref)
    (d : DataFrame L) :
  preserves s0 s -> lookup s r = Some (Frame d) ->
  sim (fun s' r' d' => new_table s0 s' r' d')
    (pbind (frame r) (fun x => new (Frame (f x)))) (ret (f d)) s.
Proof.
  intros Hp Hr. apply (sim_frame _ Hr). now apply sim_new_table.
Qed.

Lemma configurar_filtros_sim (ui : Page2.widgets) (s : store Timestamp) (dados : ref)
    (d : DataFrame Timestamp) :
  lookup s dados = Some (Frame d) ->
  sim (fun s' r d' => new_table s s' r d')
    (configurar_filtros ui dados) (Page2.configurar_filtros ui d) s.
Proof.
  intros Hd. unfold configurar_filtros, Page2.configurar_filtros.
  apply (sim_bind _ (sim_run _ _)). intros s1 _ _ Hs1 _.
  apply (sim_columns_of _ (Hs1 _ _ Hd)).
  apply (sim_bind _ (sim_run _ _)). intros s2 _ _ Hs2 _.
  pose proof (preserves_trans Hs1 Hs2) as H2.
  apply (sim_left (fun _ a => a = Page2.acoes_selecionadas ui d)).
  { exists (Page2.acoes_selecionadas ui d), s2. split; [|split; [apply preserves_refl | reflexivity]].
    unfold Page2.acoes_selecionadas. destruct (Page2.page2_acoes ui) as [|a l].
    - exact (columns_of_run (H2 _ _ Hd)).
    - reflexivity. }
  intros s3 acoes Hs3 ->. pose proof (preserves_trans H2 Hs3) as H3.
  apply (sim_bind _ (getitem_list_sim _ (H3 _ _ Hd))).
  intros s4 r4 d4 Hs4 [_ Hr4]. pose proof (preserves_trans H3 Hs4) as H4.
  apply (sim_bind _ (sim_run _ _)). intros s5 _ _ Hs5 _.
  apply (sim_bind _ (index_min_sim (Hs5 _ _ Hr4))). intros s6 lo ? Hs6 <-.
  apply (sim_bind _ (index_max_sim (Hs6 _ _ (Hs5 _ _ Hr4)))). intros s7 hi ? Hs7 <-.
  cbv zeta.
  apply (sim_bind _ (sim_run _ _)). intros s8 _ _ Hs8 _.
  apply (sim_bind _ (sim_run _ _)). intros s9 _ _ Hs9 _.
  apply (sim_bind _ (sim_run _ _)). intros s10 _ _ Hs10 _.
  pose proof (preserves_trans Hs5 (preserves_trans Hs6 (preserves_trans Hs7
                (preserves_trans Hs8 (preserves_trans Hs9 Hs10))))) as H10.
  pose proof (preserves_trans H4 H10) as H0.
  destruct (St.value_of (Page2.page2_data_inicial ui) _) as [data_inicial|];
    [destruct (St.value_of (Page2.page2_data_final ui) _) as [data_final|]|].
  - destruct (ts_ltb data_final data_inicial).
    + apply (sim_bind _ (sim_run _ _)). intros s11 _ _ Hs11 _.
      apply sim_new_table. exact (preserves_trans H0 Hs11).
    + apply (sim_left _ (alloc_table (fun x => Pd.loc_slice x data_inicial data_final)
                           (H10 _ _ Hr4))).
      intros s11 r11 Hs11 [_ Hr11].
      apply (sim_bind _ (sim_run _ _)). intros s12 _ _ Hs12 _.
      apply (sim_bind _ (sim_run _ _)). intros s13 _ _ Hs13 _.
      apply (sim_bind _ (sim_run _ _)). intros s14 _ _ Hs14 _.
      apply (sim_bind _ (sim_run _ _)). intros s15 _ _ Hs15 _.
      pose proof (preserves_trans Hs12 (preserves_trans Hs13 (preserves_trans Hs14 Hs15)))
        as H15.
      apply (sim_left (fun s' a =>
               lookup s' a = Some (Frame (Page2.aplicar_filtros_variacao
                                            (Page2.filtros_marcados ui)
                                            (Pd.loc_slice d4 data_inicial data_final))))).
      { destruct (aplicar_filtros_variacao_run _ (Page2.filtros_marcados ui) _ _ (H15 _ _ Hr11))
          as [r' [s' [E [P Hr']]]].
        exists r', s'. now split. }
      intros s16 r16 Hs16 Hr16.
      apply (sim_alloc_table (fun x => Pd.dropna_all x)); [|exact Hr16].
      exact (preserves_trans H0 (preserves_trans Hs11 (preserves_trans H15 Hs16))).
  - apply (sim_bind _ (sim_run _ _)). intros s11 _ _ Hs11 _.
    apply sim_new_table. exact (preserves_trans H0 Hs11).
  - apply (sim_bind _ (sim_run _ _)). intros s11 _ _ Hs11 _.
    apply sim_new_table. exact (preserves_trans H0 Hs11).
Qed.

(** *** calcular_variacao_mensal *)

Lemma stamps_map (ts : list Timestamp) : stamps (map Stamp ts) = Some ts.
Proof. induction ts as [|t ts IH]; simpl; [reflexivity | now rewrite IH]. Qed.

Lemma shift_rows_stamped (prev : list float) (rs : list (Timestamp * list float)) :
  shift_rows prev (map (fun r => (Stamp (fst r), snd r)) rs)
  = map (fun r => (Stamp (fst r), snd r)) (shift_rows prev rs).
Proof.
  revert prev. induction rs as [|r rs IH]; intros prev; simpl;
    [reflexivity | now rewrite IH].
Qed.

Lemma pct_change_stamped (d : DataFrame Timestamp) :
  Pd.pct_change (stamped d) = stamped (Pd.pct_change d).
Proof.
  unfold Pd.pct_change, stamped, shift1. simpl. f_equal.
  rewrite shift_rows_stamped.
  generalize (shift_rows (map (fun _ => nan) (columns d)) (rows d)).
  induction (rows d) as [|r rs IH]; intros [|q qs]; simpl; try reflexivity.
  now rewrite IH.
Qed.

Lemma calcular_variacao_mensal_run (parse : string -> option Timestamp)
    (s : store label) (dados : ref) (d : DataFrame label) :
  lookup s dados = Some (Frame d) ->
  (forall l, In l (index d) -> exists t, l = Stamp t) ->
  exists r s' v,
    calcular_variacao_mensal parse dados s = Some (ret r, s') /\
    preserves s s' /\ new_table s s' r (stamped v) /\
    Page2.calcular_variacao_mensal parse d = Ok (d, v).
Proof.
  intros Hd Hstamps.
  destruct (to_datetime_all_stamps parse _ Hstamps) as [ts [Hts Hmap]].
  set (mensal := Pd.resample_ME_last (Pd.set_index d ts)).
  set (s1 := (s ++ [Frame (stamped mensal)])%list).
  exists (List.length s1), (s1 ++ [Frame (stamped (Pd.pct_change mensal))])%list,
    (Pd.pct_change mensal).
  split; [|split; [|split; [split|]]].
  - unfold calcular_variacao_mensal.
    assert (E1 : pbind (frame dados) (fun x => run (lift (to_datetime parse (index x)))) s
                 = Some (ret ts, s)).
    { rewrite (pbind_step _ (frame_run Hd)). unfold run. now rewrite Hts. }
    rewrite (pbind_step _ E1).
    assert (E2 : set_index dados (map Stamp ts) s = Some (ret tt, s)).
    { unfold set_index. rewrite (pbind_step _ (frame_run Hd)).
      rewrite Hmap, set_index_same. unfold assign. rewrite Hd.
      now rewrite (replace_same Hd). }
    rewrite (pbind_step _ E2).
    assert (E3 : resample_ME_last dados s = Some (ret (List.length s), s1)).
    { unfold resample_ME_last. rewrite (pbind_step _ (frame_run Hd)).
      unfold datetime_index. rewrite <- Hmap, stamps_map.
      rewrite (pbind_step (s1 := s) (a := Pd.set_index d ts) _ eq_refl).
      reflexivity. }
    rewrite (pbind_step _ E3).
    assert (E4 : pct_change (List.length s) s1
                 = Some (ret (List.length s1),
                         (s1 ++ [Frame (stamped (Pd.pct_change mensal))])%list)).
    { unfold pct_change, s1.
      rewrite (alloc_run (fun x => Frame (Pd.pct_change x)) (lookup_new s _)).
      now rewrite pct_change_stamped. }
    now rewrite (pbind_step _ E4).
  - exact (preserves_trans (preserves_new s (Frame (stamped mensal)))
             (preserves_new s1 _)).
  - apply (fresh_back (preserves_new s (Frame (stamped mensal)))), lookup_fresh.
  - apply lookup_new.
  - unfold Page2.calcular_variacao_mensal. rewrite Hts. simpl Py.bind.
    now rewrite Hmap, set_index_same.
Qed.

(** C6.  No step writes to the table it is given.  From every store in
    which the name [dados] holds a table, each of the four functions runs,
    and in the store it leaves every object of the store it started from,
    the table of [dados] among them, is at its place as it was, with its
    index, its columns and its values.  What a function shows and returns
    is what it computes from the value of that table, and the table it
    returns is held by an object the store did not have before the call.
    For [calcular_variacao_mensal] the index of the table holds timestamps,
    as the docstring of the function requires: the assignment to
    [dados.index] then writes the index that was there. *)
Theorem input_table_unchanged (parse_datetime : string -> option Timestamp) :
  (forall (ui : Page1.widgets) (s : store Timestamp) (dados : ref)
          (d : DataFrame Timestamp),
     lookup s dados = Some (Frame d) ->
     exists out s',
       configurar_sidebar ui dados s = Some (out, s') /\
       preserves s s' /\ lookup s' dados = Some (Frame d) /\
       fst out = fst (Page1.configurar_sidebar ui d) /\
       match snd (Page1.configurar_sidebar ui d) with
       | Ok (dados_final, lista_acoes, acao_unica) =>
           exists r, snd out = Ok (r, lista_acoes, acao_unica) /\
                     new_table s s' r dados_final
       | Raise e => snd out = Raise e
       end) /\
  (forall (ui : Page2.widgets) (s : store Timestamp) (dados_variacao : ref)
          (d : DataFrame Timestamp),
     lookup s dados_variacao = Some (Frame d) ->
     exists out s',
       configurar_filtros ui dados_variacao s = Some (out, s') /\
       preserves s s' /\ lookup s' dados_variacao = Some (Frame d) /\
       fst out = fst (Page2.configurar_filtros ui d) /\
       match snd (Page2.configurar_filtros ui d) with
       | Ok dados_filtrados =>
           exists r, snd out = Ok r /\ new_table s s' r dados_filtrados
       | Raise e => snd out = Raise e
       end) /\
  (forall (s : store Timestamp) (dados : ref) (d : DataFrame Timestamp)
          (lista_acoes : list string) (acao_unica : option string),
     lookup s dados = Some (Frame d) ->
     exists s',
       calcular_performance dados lista_acoes acao_unica s
         = Some (([], Page1.calcular_performance d lista_acoes acao_unica), s') /\
       preserves s s' /\ lookup s' dados = Some (Frame d)) /\
  (forall (s : store label) (dados : ref) (d : DataFrame label),
     lookup s dados = Some (Frame d) ->
     (forall l, In l (index d) -> exists t, l = Stamp t) ->
     exists r s' variacao_mensal,
       calcular_variacao_mensal parse_datetime dados s = Some (([], Ok r), s') /\
       preserves s s' /\ lookup s' dados = Some (Frame d) /\
       new_table s s' r (stamped variacao_mensal) /\
       Page2.calcular_variacao_mensal parse_datetime d = Ok (d, variacao_mensal)).
Proof.
  split; [|split; [|split]].
  - intros ui s dados d Hd.
    destruct (configurar_sidebar_sim ui s dados d Hd) as [out [s' [E [P [Hev Hres]]]]].
    exists out, s'. split; [exact E|]. split; [exact P|]. split; [exact (P _ _ Hd)|].
    split; [exact Hev|].
    destruct (snd (Page1.configurar_sidebar ui d)) as [[[df l] a]|e]; [|exact Hres].
    destruct Hres as [[[r l'] a'] [Hout [Hl [Ha Hnew]]]]. simpl in Hl, Ha, Hnew.
    subst l' a'. now exists r.
  - intros ui s dados d Hd.
    destruct (configurar_filtros_sim ui s dados d Hd) as [out [s' [E [P [Hev Hres]]]]].
    exists out, s'. split; [exact E|]. split; [exact P|]. split; [exact (P _ _ Hd)|].
    now split.
  - intros s dados d lista_acoes acao_unica Hd.
    destruct (calcular_performance_run s dados d lista_acoes acao_unica Hd) as [s' [E P]].
    exists s'. split; [exact E|]. split; [exact P | exact (P _ _ Hd)].
  - intros s dados d Hd Hstamps.
    destruct (calcular_variacao_mensal_run parse_datetime s dados d Hd Hstamps)
      as [r [s' [v [E [P [Hnew Hv]]]]]].
    exists r, s', v. split; [exact E|]. split; [exact P|].
    split; [exact (P _ _ Hd)|]. now split.
Qed.

End Stores.

Section StoreExamples.

Import Objects.

Lemma input_table_unchanged_witness :
  (exists out s',
     configurar_sidebar (Page1.mkWidgets ["PETR4.SA"] St.Untouched) 0
       [Frame Ex.precos_10_20] = Some (out, s') /\
     preserves [Frame Ex.precos_10_20] s' /\
     lookup s' 0 = Some (Frame Ex.precos_10_20) /\
     fst out = fst (Page1.configurar_sidebar (Page1.mkWidgets ["PETR4.SA"] St.Untouched)
                      Ex.precos_10_20) /\
     match snd (Page1.configurar_sidebar (Page1.mkWidgets ["PETR4.SA"] St.Untouched)
                  Ex.precos_10_20) with
     | Ok (dados_final, lista_acoes, acao_unica) =>
         exists r, snd out = Ok (r, lista_acoes, acao_unica) /\
                   new_table [Frame Ex.precos_10_20] s' r dados_final
     | Raise e => snd out = Raise e
     end) /\
  (exists out s',
     configurar_filtros Ex.apenas_altas 0 [Frame Ex.variacoes] = Some (out, s') /\
     preserves [Frame Ex.variacoes] s' /\
     lookup s' 0 = Some (Frame Ex.variacoes) /\
     fst out = fst (Page2.configurar_filtros Ex.apenas_altas Ex.variacoes) /\
     match snd (Page2.configurar_filtros Ex.apenas_altas Ex.variacoes) with
     | Ok dados_filtrados =>
         exists r, snd out = Ok r /\ new_table [Frame Ex.variacoes] s' r dados_filtrados
     | Raise e => snd out = Raise e
     end) /\
  (exists s',
     calcular_performance 0 ["PETR4.SA"] (Some "PETR4.SA") [Frame Ex.precos_10_20]
       = Some (([], Page1.calcular_performance Ex.precos_10_20 ["PETR4.SA"]
                      (Some "PETR4.SA")), s') /\
     preserves [Frame Ex.precos_10_20] s' /\
     lookup s' 0 = Some (Frame Ex.precos_10_20)) /\
  (exists r s' variacao_mensal,
     calcular_variacao_mensal Ex.parse_iso 0 [Frame (stamped Ex.diario)]
       = Some (([], Ok r), s') /\
     preserves [Frame (stamped Ex.diario)] s' /\
     lookup s' 0 = Some (Frame (stamped Ex.diario)) /\
     new_table [Frame (stamped Ex.diario)] s' r (stamped variacao_mensal) /\
     Page2.calcular_variacao_mensal Ex.parse_iso (stamped Ex.diario)
       = Ok (stamped Ex.diario, variacao_mensal)).
Proof.
  split; [|split; [|split]].
  - apply (proj1 (input_table_unchanged Ex.parse_iso)). reflexivity.
  - apply (proj1 (proj2 (input_table_unchanged Ex.parse_iso))). reflexivity.
  - apply (proj1 (proj2 (proj2 (input_table_unchanged Ex.parse_iso)))). reflexivity.
  - apply (proj2 (proj2 (proj2 (input_table_unchanged Ex.parse_iso)))).
    + reflexivity.
    + intros l Hl. unfold index in Hl. simpl in Hl.
      repeat (destruct Hl as [<-|Hl]; [eexists; reflexivity|]). contradiction.
Defined.

(** The run of the direction filter on the table of variations, with the
    rises asked for: the table given is the first object and is as it was;
    the selection, the period, the mask, the comparison, the filtered table
    and the table returned are the six objects after it, and the mask is
    the only one that was written to. *)
Lemma configurar_filtros_objects :
  option_map (fun x => (snd (fst x), snd x))
    (configurar_filtros Ex.apenas_altas 0 [Frame Ex.variacoes])
  = Some (Ok 6%nat,
          [Frame Ex.variacoes;
           Frame Ex.variacoes;
           Frame Ex.variacoes;
           Bools [[true]; [false]; [false]];
           Bools [[true]; [false]; [false]];
           Frame (mkDF ["PETR4.SA"]
                    [(mkTs 2024 1 31, [0.01%float]); (mkTs 2024 2 29, [nan]);
                     (mkTs 2024 3 31, [nan])]);
           Frame (mkDF ["PETR4.SA"] [(mkTs 2024 1 31, [0.01%float])])]).
Proof. vm_compute. reflexivity. Qed.

(** On a table whose index is text, which the docstring rules out, the
    assignment to [dados.index] is seen by whoever holds the table: its
    labels have become the timestamps they stand for. *)
Lemma calcular_variacao_mensal_writes_text_index :
  option_map (fun x => (snd (fst x), lookup (snd x) 0))
    (calcular_variacao_mensal Ex.parse_iso 0 [Frame Ex.diario_texto])
  = Some (Ok 2%nat,
          Some (Frame (mkDF ["PETR4.SA"]
                         [(Stamp (mkTs 2024 1 30), [100%float]);
                          (Stamp (mkTs 2024 2 28), [110%float])]))) /\
  index Ex.diario_texto = [Text "2024-01-30"; Text "2024-02-28"].
Proof. split; [vm_compute; reflexivity | reflexivity]. Qed.

End StoreExamples.

(* ===================================================================== *)
(** ** A run without the ticker file                                      *)
(* ===================================================================== *)

Section MissingFile.

(** Page 2 stops after the loader: the error and the hint are shown, and
    nothing is fetched, filtered, computed or drawn. *)
Lemma main_page2_halts_without_tickers (parse : string -> option Timestamp)
    (w : world) (ui : Page2.widgets) :
  arquivos w Page1.ARQUIVO_TICKERS = None ->
  Page2.main parse w ui =
    ([Show (St.error "Erro: O arquivo 'IBOV.csv' não foi encontrado.");
      Show (St.info "Por favor, certifique-se de que o arquivo está na mesma pasta que o seu script Streamlit.")],
     Ok tt).
Proof.
  intros Hfile. unfold Page2.main.
  rewrite (carregar_tickers_acoes_absent w Hfile). reflexivity.
Qed.

(** C5 on the code: page 1 does not stop.  Without the ticker file it
    shows the error and the hint and then asks the provider for the prices
    of no symbol, and goes on from what the provider answers. *)
Theorem main_page1_fetches_without_tickers (w : world) (ui : Page1.widgets) :
  arquivos w Page1.ARQUIVO_TICKERS = None ->
  exists rest,
    fst (Page1.main w ui) =
      ([Show (St.title "Evolução e Performance das Ações");
        Show (St.error "Erro: O arquivo 'IBOV.csv' não foi encontrado.");
        Show (St.info "Por favor, certifique-se de que o arquivo está na mesma pasta que o seu script Streamlit.");
        Download [] Page1.DATA_INICIO Page1.DATA_FIM] ++ rest)%list.
Proof.
  intros Hfile. unfold Page1.main.
  rewrite (carregar_tickers_acoes_absent w Hfile).
  unfold Page1.carregar_dados, sbind. simpl.
  destruct (yf_download w [] Page1.DATA_INICIO Page1.DATA_FIM) as [resp|e];
    simpl; eexists; reflexivity.
Qed.

Lemma main_page1_fetches_without_tickers_witness :
  exists rest,
    fst (Page1.main Ex.mundo_sem_arquivo (Page1.mkWidgets [] St.Untouched)) =
      ([Show (St.title "Evolução e Performance das Ações");
        Show (St.error "Erro: O arquivo 'IBOV.csv' não foi encontrado.");
        Show (St.info "Por favor, certifique-se de que o arquivo está na mesma pasta que o seu script Streamlit.");
        Download [] Page1.DATA_INICIO Page1.DATA_FIM] ++ rest)%list.
Proof.
  apply main_page1_fetches_without_tickers. reflexivity.
Defined.

(** The whole run of page 1 in a directory without the file, with a
    provider that answers: the frame fetched has no row, and the sidebar
    ends the run on the first label it looks for. *)
Lemma main_page1_without_tickers_example :
  Page1.main Ex.mundo_sem_arquivo (Page1.mkWidgets [] St.Untouched) =
    ([Show (St.title "Evolução e Performance das Ações");
      Show (St.error "Erro: O arquivo 'IBOV.csv' não foi encontrado.");
      Show (St.info "Por favor, certifique-se de que o arquivo está na mesma pasta que o seu script Streamlit.");
      Download [] Page1.DATA_INICIO Page1.DATA_FIM;
      Show (St.sidebar_header "Filtros");
      Show (St.multiselect "page1_acoes" [])],
     Raise (AttributeError "to_pydatetime")).
Proof. vm_compute. reflexivity. Qed.

End MissingFile.
